(** * standup.auth0.middleware: id_token validation middleware

    A shallow embedding of [src/standup/auth0/middleware.py]: the renewal
    client [renew_id_token], the two middleware classes [ValidateIdToken]
    and [ValidateIdTokenUsingCache] with their [is_expired] and
    [update_expiration] methods, and the request hook [process_request].

    Python code is embedded in a state-and-exception monad [py] over a
    [World] holding what the module reaches through its collaborators:
    the IdToken table, the Django cache, the clock, the session of the
    request and the history of collaborator calls. *)

From Stdlib Require Import ZArith String Ascii List Bool Lia.
From Stdlib Require Import Floats.SpecFloat.
From stdpp Require Import base gmap strings pretty list.

Local Open Scope Z_scope.
Local Open Scope string_scope.
Set Warnings "-register-all".

(** ** Python values and exceptions *)

Module Py.

(** The values [simplejson] can produce, which are also the values the
    module stores and sends. A dict is kept as its list of items. *)
Inductive pyval : Type :=
  | PNone
  | PBool (b : bool)
  | PInt (z : Z)
  | PFloat (f : spec_float)
  | PStr (s : string)
  | PList (items : list pyval)
  | PDict (items : list (string * pyval)).

(** [bool(v)]. *)
Definition truthy (v : pyval) : bool :=
  match v with
  | PNone => false
  | PBool b => b
  | PInt z => negb (z =? 0)%Z
  | PFloat (S754_zero _) => false
  | PFloat _ => true
  | PStr s => negb (s =? "")%string
  | PList [] => false
  | PList _ => true
  | PDict [] => false
  | PDict _ => true
  end.

(** The exception classes the module can meet. *)
Inductive exn : Type :=
  | Exception
  | LookupError
  | IndexError
  | AttributeError
  | ArithmeticError
  | OverflowError
  | ValueError
  | JSONDecodeError
  | ObjectDoesNotExist
  | DoesNotExist            (* IdToken.DoesNotExist *)
  | OSError
  | RequestException
  | ConnectionError
  | SSLError
  | Timeout
  | ConnectTimeout
  | ReadTimeout.

Global Instance exn_eq_dec : EqDecision exn.
Proof. solve_decision. Defined.

(** Direct base classes, as in the builtins, [simplejson], Django and
    [requests.exceptions]. *)
Definition bases (c : exn) : list exn :=
  match c with
  | Exception => []
  | LookupError | AttributeError | ArithmeticError | ValueError
  | ObjectDoesNotExist | OSError =>
      [Exception]
  | OverflowError => [ArithmeticError]
  | IndexError => [LookupError]
  | JSONDecodeError => [ValueError]
  | DoesNotExist => [ObjectDoesNotExist]
  | RequestException => [OSError]
  | ConnectionError | Timeout => [RequestException]
  | SSLError => [ConnectionError]
  | ConnectTimeout => [ConnectionError; Timeout]
  | ReadTimeout => [Timeout]
  end.

Fixpoint issubclass_fuel (fuel : nat) (c d : exn) : bool :=
  bool_decide (c = d) ||
  match fuel with
  | O => false
  | S n => existsb (fun b => issubclass_fuel n b d) (bases c)
  end.

(** [issubclass(c, d)]; the hierarchy above is five levels deep. *)
Definition issubclass (c d : exn) : bool := issubclass_fuel 5 c d.

(** Whether [except (d1, d2, ...)] catches an exception of class [c]. *)
Definition caught_by (classes : list exn) (c : exn) : bool :=
  existsb (issubclass c) classes.

(** How a Python computation ends. *)
Inductive outcome (A : Type) : Type :=
  | Returned (a : A)
  | Raised (e : exn).
Arguments Returned {A} a.
Arguments Raised {A} e.

(** [d.get(key)] on the items of a dict, [None] when the key is absent. *)
Fixpoint dict_get (items : list (string * pyval)) (key : string) : pyval :=
  match items with
  | [] => PNone
  | (k, v) :: rest => if (k =? key)%string then v else dict_get rest key
  end.

(** [result.get(key)]: only a dict has a [get] attribute. *)
Definition getattr_get (result : pyval) (key : string) : outcome pyval :=
  match result with
  | PDict items => Returned (dict_get items key)
  | _ => Raised AttributeError
  end.

(** *** Strings. A [str] is kept as the bytes of its UTF-8 encoding, in
    which the byte of '@' stands for '@' only. *)

Definition ascii_lower (c : ascii) : ascii :=
  let n := N_of_ascii c in
  if ((65 <=? n) && (n <=? 90))%N then ascii_of_N (n + 32) else c.

(** A-Z to a-z and the rest unchanged: what [s.lower()] is on ASCII text. *)
Fixpoint lower_ascii (s : string) : string :=
  match s with
  | EmptyString => EmptyString
  | String c r => String (ascii_lower c) (lower_ascii r)
  end.

(** [s.isascii()]. *)
Fixpoint is_ascii (s : string) : bool :=
  match s with
  | EmptyString => true
  | String c r => (N_of_ascii c <? 128)%N && is_ascii r
  end.

(** [s.partition(sep)] for a one-character separator, [None] when [sep]
    does not occur. *)
Fixpoint partition (sep : ascii) (s : string) : option (string * string) :=
  match s with
  | EmptyString => None
  | String c r =>
      if Ascii.eqb c sep then Some (EmptyString, r)
      else match partition sep r with
           | Some (a, b) => Some (String c a, b)
           | None => None
           end
  end.

(** [s.split(sep, 1)]. *)
Definition split1 (sep : ascii) (s : string) : list string :=
  match partition sep s with
  | Some (a, b) => [a; b]
  | None => [s]
  end.

(** [sep in s]. *)
Fixpoint occurs (sep : ascii) (s : string) : bool :=
  match s with
  | EmptyString => false
  | String c r => Ascii.eqb c sep || occurs sep r
  end.

(** [s.lower()] as the Python runtime computes it. The Unicode case
    tables are not embedded: the function is taken as it comes, with the
    two facts about it that the module depends on. On ASCII text only A-Z
    change; and lower-casing neither brings in nor takes away an '@'. *)
Record Lowering : Type := mkLowering {
  str_lower :> string -> string;
  str_lower_ascii : forall s : string,
    is_ascii s = true -> str_lower s = lower_ascii s;
  str_lower_at : forall s : string,
    occurs "@" (str_lower s) = occurs "@" s;
}.

(** [sub in s] for strings. *)
Fixpoint mentions (sub s : string) : bool :=
  String.prefix sub s ||
  match s with
  | EmptyString => false
  | String _ r => mentions sub r
  end.

(** [l[i]]. *)
Definition getitem {A} (l : list A) (i : nat) : outcome A :=
  match l !! i with
  | Some x => Returned x
  | None => Raised IndexError
  end.

Lemma ascii_lower_at (c : ascii) :
  Ascii.eqb (ascii_lower c) "@" = Ascii.eqb c "@".
Proof.
  destruct c as [b0 b1 b2 b3 b4 b5 b6 b7].
  destruct b0, b1, b2, b3, b4, b5, b6, b7; reflexivity.
Qed.

Lemma occurs_lower_ascii (s : string) :
  occurs "@" (lower_ascii s) = occurs "@" s.
Proof.
  induction s as [|c r IH]; cbn; [reflexivity|].
  rewrite ascii_lower_at, IH. reflexivity.
Qed.

(** The lowering that changes A-Z and nothing else: [s.lower()] as far as
    ASCII text goes. *)
Definition ascii_lowering : Lowering :=
  mkLowering lower_ascii (fun s _ => eq_refl) occurs_lower_ascii.

End Py.
Import Py.

(** ** The world the middleware runs in *)

(** Modelled from the spec: [standup.auth0.models.IdToken] is not part of
    the sources at hand. A TokenRecord has an owning user, a token value
    and an expiration timestamp, at most one record per user; the table
    below is keyed by the user's id. Timestamps are microseconds. *)
Record IdToken : Type := mkIdToken {
  id_token : pyval;
  expire : Z;
}.

(** Modelled from the spec: [standup.auth0.settings.app_settings] is not
    part of the sources at hand. Section 6 lists what is configured:
    provider domain, client identifier, network timeout, renewal interval
    in seconds, sign-in view, callback URL and the eligible domains. *)
Record Settings : Type := mkSettings {
  AUTH0_DOMAIN : string;
  AUTH0_CLIENT_ID : string;
  AUTH0_PATIENCE_TIMEOUT : Z;
  AUTH0_ID_TOKEN_EXPIRY : Z;
  AUTH0_SIGNIN_VIEW : string;
  AUTH0_CALLBACK_URL : string;
  AUTH0_ID_TOKEN_DOMAINS : list string;
}.

(** [request.user], and the attributes of [request] that are read. *)
Record User : Type := mkUser {
  user_id : Z;
  username : string;
  email : string;
  is_active : bool;
}.

Record Request : Type := mkRequest {
  method : string;
  is_ajax : bool;
  path : string;
  user : User;
}.

(** What [process_request] hands back besides [None]. *)
Inductive HttpResponse : Type :=
  | HttpResponseRedirect (url : string).

(** The answer of [response.json()]: [None] stands for a body that does
    not decode. *)
Record Response : Type := mkResponse {
  body_json : option pyval;
}.

(** What one [requests.post] call does: after [elapsed] microseconds it
    raises or hands back a response. *)
Record Exchange : Type := mkExchange {
  elapsed : Z;
  answer : outcome Response;
}.

(** Calls made to collaborators, in order. *)
Inductive event : Type :=
  | IdToken_objects_get (uid : Z)
  | IdToken_save (uid : Z) (token : IdToken)
  | Cache_get (key : string)
  | Cache_set (key : string) (value : pyval) (timeout : Z)
  | Requests_post (url : string) (json : pyval) (timeout : Z)
  | Messages_error (text : string) (fail_silently : bool)
  | Logout
  | Logger_debug (text : string).

Record World : Type := mkWorld {
  idtokens : gmap Z IdToken;          (* the IdToken table, by user id *)
  cache : gmap string (pyval * Z);    (* key -> value, time of expiry *)
  clock : Z;                          (* [timezone.now()], microseconds *)
  session : option Z;                 (* user id held by the session *)
  trace : list event;
}.

(** *** Elementary changes of the world *)

Definition emit (e : event) (w : World) : World :=
  mkWorld (idtokens w) (cache w) (clock w) (session w) (trace w ++ [e]).

Definition advance (d : Z) (w : World) : World :=
  mkWorld (idtokens w) (cache w) (clock w + d) (session w) (trace w).

Definition put_idtoken (uid : Z) (t : IdToken) (w : World) : World :=
  mkWorld (<[uid := t]> (idtokens w)) (cache w) (clock w) (session w) (trace w).

Definition put_cache (key : string) (v : pyval) (exp : Z) (w : World) : World :=
  mkWorld (idtokens w) (<[key := (v, exp)]> (cache w)) (clock w) (session w)
          (trace w).

Definition flush_session (w : World) : World :=
  mkWorld (idtokens w) (cache w) (clock w) None (trace w).

(** ** The monad of Python code *)

Definition py (A : Type) : Type := World -> outcome A * World.

Global Instance py_ret : MRet py := fun A a w => (Returned a, w).

Global Instance py_bind : MBind py := fun A B f m w =>
  match m w with
  | (Returned a, w') => f a w'
  | (Raised e, w') => (Raised e, w')
  end.

(** [raise e]. *)
Definition raise {A} (e : exn) : py A := fun w => (Raised e, w).

(** Lifting of an [outcome]. *)
Definition lift {A} (o : outcome A) : py A := fun w => (o, w).

(** [try: m  except classes: ...]: the result of [m], or the exception
    that the handler receives; other exceptions keep propagating. *)
Definition try_except {A} (m : py A) (classes : list exn) : py (A + exn) :=
  fun w =>
    match m w with
    | (Returned a, w') => (Returned (inl a), w')
    | (Raised e, w') =>
        if caught_by classes e then (Returned (inr e), w') else (Raised e, w')
    end.

Definition microseconds (seconds : Z) : Z := seconds * 1000000.

(** [datetime.min] and [datetime.max], 0001-01-01 00:00:00 and 9999-12-31
    23:59:59.999999, in microseconds from 1970-01-01. *)
Definition datetime_min : Z := -62135596800000000.
Definition datetime_max : Z := 253402300799999999.

Definition datetime_ok (t : Z) : bool :=
  (datetime_min <=? t)%Z && (t <=? datetime_max)%Z.

(** A [timedelta] holds at most 999999999 days either way. *)
Definition timedelta_ok (seconds : Z) : bool :=
  (-999999999 <=? seconds / 86400)%Z && (seconds / 86400 <=? 999999999)%Z.

(** [timedelta(seconds=n)], in microseconds. *)
Definition timedelta (seconds : Z) : outcome Z :=
  if timedelta_ok seconds then Returned (microseconds seconds)
  else Raised OverflowError.

(** [t + d] for a datetime [t] and a timedelta [d]. *)
Definition datetime_add (t d : Z) : outcome Z :=
  if datetime_ok (t + d) then Returned (t + d) else Raised OverflowError.

(** [timezone.now()]. *)
Definition timezone_now : py Z := fun w => (Returned (clock w), w).

(** [IdToken.objects.get(user=u)]. *)
Definition IdToken_get (u : User) : py IdToken := fun w =>
  let w' := emit (IdToken_objects_get (user_id u)) w in
  match idtokens w !! user_id u with
  | Some t => (Returned t, w')
  | None => (Raised DoesNotExist, w')
  end.

(** [token.save()] for the token of user [u]. *)
Definition save (u : User) (token : IdToken) : py unit := fun w =>
  (Returned tt, put_idtoken (user_id u) token (emit (IdToken_save (user_id u) token) w)).

(** The entry under [key] that is alive now, if any. *)
Definition live_entry (key : string) (w : World) : option pyval :=
  match cache w !! key with
  | Some (v, exp) => if (clock w <? exp)%Z then Some v else None
  | None => None
  end.

(** [cache.get(key)]: the value of a live entry, else [None]. *)
Definition cache_get (key : string) : py pyval := fun w =>
  (Returned (default PNone (live_entry key w)), emit (Cache_get key) w).

(** [cache.set(key, value, timeout)]: the entry lives for [timeout]
    seconds from now. *)
Definition cache_set (key : string) (value : pyval) (timeout : Z) : py unit :=
  fun w =>
    (Returned tt,
     put_cache key value (clock w + microseconds timeout)
               (emit (Cache_set key value timeout) w)).

(** [messages.error(request, text, fail_silently=...)]. *)
Definition messages_error (text : string) (fail_silently : bool) : py unit :=
  fun w => (Returned tt, emit (Messages_error text fail_silently) w).

(** [logout(request)]: the session is flushed. *)
Definition logout : py unit :=
  fun w => (Returned tt, flush_session (emit Logout w)).

(** [logger.debug(text)]. *)
Definition logger_debug (text : string) : py unit :=
  fun w => (Returned tt, emit (Logger_debug text) w).

(** ** A concrete deployment, used to run the module *)

Module Example.

Definition settings : Settings :=
  mkSettings "auth.example.com" "client0" 5 900 "auth0_login"
             "https://standup.example.com/auth/callback" ["mozilla.com"].

(** A renewal interval of 10^12 seconds, some 31700 years. *)
Definition settings_forever : Settings :=
  mkSettings "auth.example.com" "client0" 5 1000000000000 "auth0_login"
             "https://standup.example.com/auth/callback" ["mozilla.com"].

(** The example addresses are ASCII. *)
Definition lower : Lowering := ascii_lowering.

Definition reverse (view : string) : string := "/" +:+ view +:+ "/".

Definition urlparse_path (url : string) : string := "/auth/callback".

Definition alice : User := mkUser 7 "alice" "Alice@Mozilla.com" true.
Definition bob : User := mkUser 8 "bob" "bob@example.org" true.
Definition carol : User := mkUser 9 "carol" "carol" true.

Definition get_status (u : User) : Request := mkRequest "GET" false "/status" u.
Definition get_callback (u : User) : Request :=
  mkRequest "GET" false "/auth/callback" u.

(** At time 1000: no record at all; a record that ran out at 500; a record
    good until 2000. *)
Definition no_record : World := mkWorld ∅ ∅ 1000 (Some 7) [].
Definition stale_record : World :=
  mkWorld {[ 7 := mkIdToken (PStr "old") 500 ]} ∅ 1000 (Some 7) [].
Definition fresh_record : World :=
  mkWorld {[ 7 := mkIdToken (PStr "old") 2000 ]} ∅ 1000 (Some 7) [].

(** A record that ran out, and a live cache entry for the same user. *)
Definition stale_record_cached : World :=
  mkWorld {[ 7 := mkIdToken (PStr "old") 500 ]}
          {[ "auth0:renew_id_token:7" := (PBool true, 5000) ]}
          1000 (Some 7) [].

(** Remote endpoints: one that renews, one that rejects, one that answers
    with a gateway error page, one that cannot be reached, one that is
    too slow to answer. *)
Definition renews (url : string) (json : pyval) (timeout : Z) : Exchange :=
  mkExchange 30 (Returned (mkResponse (Some (PDict [("id_token", PStr "new")])))).
Definition rejects (url : string) (json : pyval) (timeout : Z) : Exchange :=
  mkExchange 30 (Returned (mkResponse (Some (PDict [("error", PStr "blocked")])))).
Definition bad_gateway (url : string) (json : pyval) (timeout : Z) : Exchange :=
  mkExchange 30 (Returned (mkResponse None)).
Definition unreachable (url : string) (json : pyval) (timeout : Z) : Exchange :=
  mkExchange 30 (Raised ConnectionError).
Definition too_slow (url : string) (json : pyval) (timeout : Z) : Exchange :=
  mkExchange (microseconds timeout) (Raised ReadTimeout).

(** Endpoints that answer JSON of an unexpected shape: an array, and an
    object whose id_token is the empty string. *)
Definition answers_array (url : string) (json : pyval) (timeout : Z) : Exchange :=
  mkExchange 30 (Returned (mkResponse (Some (PList [])))).
Definition answers_empty_token (url : string) (json : pyval) (timeout : Z)
  : Exchange :=
  mkExchange 30 (Returned (mkResponse (Some (PDict [("id_token", PStr "")])))).

Definition post_status (u : User) : Request := mkRequest "POST" false "/status" u.

(** At time 1000, a record that expires at 1000. *)
Definition due_record : World :=
  mkWorld {[ 7 := mkIdToken (PStr "old") 1000 ]} ∅ 1000 (Some 7) [].

End Example.

(** ** The module *)

Section Middleware.

(** The configuration, [str.lower], Django's [reverse], the path component
    computed by [urlparse], and the remote endpoint answering
    [requests.post]. *)
Context (app_settings : Settings).
Context (lower : Lowering).
Context (reverse : string -> string).
Context (urlparse_path : string -> string).
Context (remote : string -> pyval -> Z -> Exchange).

(** [requests.post(url, json=json, timeout=timeout)]. *)
Definition requests_post (url : string) (json : pyval) (timeout : Z)
  : py Response := fun w =>
  let x := remote url json timeout in
  (answer x, advance (elapsed x) (emit (Requests_post url json timeout) w)).

(** [response.json()]. *)
Definition response_json (response : Response) : py pyval :=
  match body_json response with
  | Some v => mret v
  | None => raise JSONDecodeError
  end.

Definition renew_id_token (id_token : pyval) : py pyval :=
  let url := "https://" +:+ AUTH0_DOMAIN app_settings +:+ "/delegation" in
  response ← requests_post url
    (PDict [("client_id", PStr (AUTH0_CLIENT_ID app_settings));
            ("api_type", PStr "app");
            ("grant_type", PStr "urn:ietf:params:oauth:grant-type:jwt-bearer");
            ("id_token", id_token)])
    (AUTH0_PATIENCE_TIMEOUT app_settings);
  r ← try_except (response_json response) [JSONDecodeError];
  match r with
  | inr _ =>
      (* This can happen if the response was something like a 502 error *)
      mret PNone
  | inl result =>
      (* Not a 200: still JSON, but without an id_token. *)
      lift (getattr_get result "id_token")
  end.

(** The two middleware classes; a method call on [self] is resolved by
    the class of [self]. *)
Inductive middleware : Type :=
  | ValidateIdToken
  | ValidateIdTokenUsingCache.

Definition exception_paths : list string :=
  [ (* Exclude the AUTH0_CALLBACK_URL path, otherwise this can loop *)
    urlparse_path (AUTH0_CALLBACK_URL app_settings) ].

(** ['auth0:renew_id_token:%s' % request.user.id]. *)
Definition cache_key (request : Request) : string :=
  "auth0:renew_id_token:" +:+ pretty (user_id (user request)).

Definition is_expired (self : middleware) (request : Request) : py bool :=
  match self with
  | ValidateIdToken =>
      r ← try_except (IdToken_get (user request)) [DoesNotExist];
      match r with
      | inr _ =>
          (* If there's no id_token, then we treat it as expired. *)
          mret true
      | inl token =>
          (* Return whether the id_token expiration has passed *)
          now ← timezone_now;
          mret (expire token <? now)%Z
      end
  | ValidateIdTokenUsingCache =>
      (* Look up expiration in cache to see if id_token needs to be renewed *)
      v ← cache_get (cache_key request);
      mret (truthy v)
  end.

Definition update_expiration (self : middleware) (request : Request) : py unit :=
  match self with
  | ValidateIdToken =>
      (* The db record is updated before this gets called: a no-op. *)
      mret tt
  | ValidateIdTokenUsingCache =>
      cache_set (cache_key request) (PBool true)
                (AUTH0_ID_TOKEN_EXPIRY app_settings)
  end.

Definition msg_wrong_provider : string :=
  "You can't log in with that email address using the provider you " +:+
  "used. Please log in with the Mozilla LDAP provider.".

Definition msg_network_problem : string :=
  "Unable to validate your authentication with Auth0. This can happen when " +:+
  "there is temporary network problem. Please sign in again.".

Definition msg_session_expired : string :=
  "Unable to validate your authentication with Auth0. This is most likely due " +:+
  "to an expired authentication session. Please sign in again.".

(** The condition of the outer [if] of [process_request]. *)
Definition applies (request : Request) : bool :=
  negb (method request =? "POST")%string &&
  negb (is_ajax request) &&
  is_active (user request) &&
  negb (email (user request) =? "")%string &&
  negb (bool_decide (path request ∈ exception_paths)).

(** [messages.error(...); logout(request); return HttpResponseRedirect(...)]. *)
Definition sign_in_again (text : string) : py (option HttpResponse) :=
  messages_error text true;;
  logout;;
  mret (Some (HttpResponseRedirect (reverse (AUTH0_SIGNIN_VIEW app_settings)))).

Definition process_request (self : middleware) (request : Request)
  : py (option HttpResponse) :=
  if applies request then
    (* Verify their domain is one of the domains we need to look at *)
    domain ← lift (getitem (split1 "@" (lower (email (user request)))) 1);
    if negb (bool_decide (domain ∈ AUTH0_ID_TOKEN_DOMAINS app_settings)) then
      mret None
    else
      expired ← is_expired self request;
      if negb expired then mret None
      else
        (* The id_token has expired, so we renew it now *)
        r ← try_except (IdToken_get (user request)) [DoesNotExist];
        match r with
        | inr _ =>
            (* No IdToken: log them out and tell them to sign in *)
            sign_in_again msg_wrong_provider
        | inl token =>
            r ← try_except (renew_id_token (id_token token))
                           [ConnectTimeout; ReadTimeout];
            match r with
            | inr _ =>
                (* Their id_token didn't renew: log the user out *)
                sign_in_again msg_network_problem
            | inl new_id_token =>
                if truthy new_id_token then
                  (* Save new token and we're all set *)
                  now ← timezone_now;
                  delta ← lift (timedelta (AUTH0_ID_TOKEN_EXPIRY app_settings));
                  expire ← lift (datetime_add now delta);
                  let token := mkIdToken new_id_token expire in
                  save (user request) token;;
                  update_expiration self request;;
                  logger_debug ("ValidateIdToken: token renewed for " +:+
                                username (user request));;
                  mret None
                else
                  (* No new id_token: it's not valid anymore *)
                  sign_in_again msg_session_expired
            end
        end
  else mret None.

(** ** Vocabulary of the statements *)

(** The domain computed on line 108. *)
Definition email_domain (request : Request) : outcome string :=
  getitem (split1 "@" (lower (email (user request)))) 1.

(** A request that gets as far as the expiry check. *)
Definition eligible (request : Request) : bool :=
  applies request &&
  match email_domain request with
  | Returned domain => bool_decide (domain ∈ AUTH0_ID_TOKEN_DOMAINS app_settings)
  | Raised _ => false
  end.

(** The exchange with the remote endpoint that renewing [id_token] is. *)
Definition renewal (id_token : pyval) : Exchange :=
  remote ("https://" +:+ AUTH0_DOMAIN app_settings +:+ "/delegation")
    (PDict [("client_id", PStr (AUTH0_CLIENT_ID app_settings));
            ("api_type", PStr "app");
            ("grant_type", PStr "urn:ietf:params:oauth:grant-type:jwt-bearer");
            ("id_token", id_token)])
    (AUTH0_PATIENCE_TIMEOUT app_settings).

(** The world once [requests.post] has come back from renewing [id_token]. *)
Definition posted (id_token : pyval) (w : World) : World :=
  advance (elapsed (renewal id_token))
    (emit (Requests_post
             ("https://" +:+ AUTH0_DOMAIN app_settings +:+ "/delegation")
             (PDict [("client_id", PStr (AUTH0_CLIENT_ID app_settings));
                     ("api_type", PStr "app");
                     ("grant_type",
                      PStr "urn:ietf:params:oauth:grant-type:jwt-bearer");
                     ("id_token", id_token)])
             (AUTH0_PATIENCE_TIMEOUT app_settings)) w).

(** The expiration that line 150 computes at time [now], or the
    [OverflowError] it raises when the interval is no [timedelta] or the
    sum is no [datetime]. *)
Definition expiration (now : Z) : outcome Z :=
  match timedelta (AUTH0_ID_TOKEN_EXPIRY app_settings) with
  | Returned delta => datetime_add now delta
  | Raised e => Raised e
  end.

(** The world after the user was sent to sign in again with [text]. *)
Definition signed_out (text : string) (w : World) : World :=
  flush_session (emit Logout (emit (Messages_error text true) w)).

Definition sign_in_redirect : option HttpResponse :=
  Some (HttpResponseRedirect (reverse (AUTH0_SIGNIN_VIEW app_settings))).

(** What [renew_id_token] hands back or raises, read off the answer of the
    remote endpoint. *)
Definition renewal_result (id_token : pyval) : outcome pyval :=
  match answer (renewal id_token) with
  | Raised e => Raised e
  | Returned response =>
      match body_json response with
      | None => Returned PNone
      | Some result => getattr_get result "id_token"
      end
  end.

(** A JSON object, as opposed to any other JSON value. *)
Definition is_object (v : pyval) : bool :=
  match v with
  | PDict _ => true
  | _ => false
  end.

(** Whether some item of a dict has the key [key]. *)
Definition has_key (key : string) (items : list (string * pyval)) : bool :=
  existsb (fun kv => (fst kv =? key)%string) items.

Definition is_post (e : event) : bool :=
  match e with
  | Requests_post _ _ _ => true
  | _ => false
  end.

Definition is_save (e : event) : bool :=
  match e with
  | IdToken_save _ _ => true
  | _ => false
  end.

(** How many calls of a history satisfy [p]. *)
Definition calls (p : event -> bool) (history : list event) : nat :=
  length (List.filter p history).

(** The query [is_expired] makes, by class. *)
Definition expiry_query (self : middleware) (request : Request) : event :=
  match self with
  | ValidateIdToken => IdToken_objects_get (user_id (user request))
  | ValidateIdTokenUsingCache => Cache_get (cache_key request)
  end.

(** ** Facts about the Python vocabulary *)

Lemma partition_absent (sep : ascii) (s : string) :
  occurs sep s = false -> partition sep s = None.
Proof.
  induction s as [|c r IH]; simpl; [reflexivity|]. intros H.
  apply orb_false_iff in H as [Hc Hr].
  rewrite Hc, (IH Hr). reflexivity.
Qed.

Lemma partition_present (sep : ascii) (s : string) :
  occurs sep s = true -> exists a b, partition sep s = Some (a, b).
Proof.
  induction s as [|c r IH]; simpl; [discriminate|].
  destruct (Ascii.eqb c sep); simpl.
  - eauto.
  - intros H. destruct (IH H) as (a & b & ->). eauto.
Qed.

Lemma partition_lower_absent (s : string) :
  occurs "@" s = false -> partition "@" (lower s) = None.
Proof. intros H. apply partition_absent. rewrite str_lower_at. exact H. Qed.

Lemma partition_lower_present (s : string) :
  occurs "@" s = true -> exists a b, partition "@" (lower s) = Some (a, b).
Proof. intros H. apply partition_present. rewrite str_lower_at. exact H. Qed.

Lemma email_domain_absent (request : Request) :
  occurs "@" (email (user request)) = false ->
  email_domain request = Raised IndexError.
Proof.
  intros H. unfold email_domain, split1.
  rewrite (partition_lower_absent _ H). reflexivity.
Qed.

(** ** Facts about the monad *)

Lemma bind_run {A B} (m : py A) (f : A -> py B) (w : World) :
  (m ≫= f) w =
  match m w with
  | (Returned a, w') => f a w'
  | (Raised e, w') => (Raised e, w')
  end.
Proof. reflexivity. Qed.

Lemma bind_returned {A B} (m : py A) (f : A -> py B) (w w' : World) (a : A) :
  m w = (Returned a, w') -> (m ≫= f) w = f a w'.
Proof. intros H. rewrite bind_run, H. reflexivity. Qed.

Lemma bind_raised {A B} (m : py A) (f : A -> py B) (w w' : World) (e : exn) :
  m w = (Raised e, w') -> (m ≫= f) w = (Raised e, w').
Proof. intros H. rewrite bind_run, H. reflexivity. Qed.

Lemma try_except_returned {A} (m : py A) cs (w w' : World) (a : A) :
  m w = (Returned a, w') -> try_except m cs w = (Returned (inl a), w').
Proof. intros H. unfold try_except. rewrite H. reflexivity. Qed.

Lemma try_except_raised {A} (m : py A) cs (w w' : World) (e : exn) :
  m w = (Raised e, w') ->
  try_except m cs w =
  if caught_by cs e then (Returned (inr e), w') else (Raised e, w').
Proof. intros H. unfold try_except. rewrite H. reflexivity. Qed.

Lemma IdToken_get_found (u : User) (w : World) (t : IdToken) :
  idtokens w !! user_id u = Some t ->
  IdToken_get u w = (Returned t, emit (IdToken_objects_get (user_id u)) w).
Proof. intros H. unfold IdToken_get. rewrite H. reflexivity. Qed.

Lemma IdToken_get_missing (u : User) (w : World) :
  idtokens w !! user_id u = None ->
  IdToken_get u w = (Raised DoesNotExist, emit (IdToken_objects_get (user_id u)) w).
Proof. intros H. unfold IdToken_get. rewrite H. reflexivity. Qed.

(** ** Facts about the middleware *)

Lemma update_expiration_returns (self : middleware) (request : Request) (w : World) :
  update_expiration self request w =
  (Returned tt, snd (update_expiration self request w)).
Proof. destruct self; reflexivity. Qed.

Lemma eligible_inv (request : Request) :
  eligible request = true ->
  applies request = true /\
  exists domain,
    getitem (split1 "@" (lower (email (user request)))) 1 = Returned domain /\
    bool_decide (domain ∈ AUTH0_ID_TOKEN_DOMAINS app_settings) = true.
Proof.
  unfold eligible, email_domain. intros H.
  apply andb_true_iff in H as [Ha Hd]. split; [exact Ha|].
  destruct (getitem _ 1) as [d|e]; [eauto | discriminate].
Qed.

(** An eligible request whose token is reported expired goes on to load
    the token. *)
Lemma process_request_expired (self : middleware) (request : Request)
    (w w1 : World) :
  eligible request = true ->
  is_expired self request w = (Returned true, w1) ->
  process_request self request w =
  (r ← try_except (IdToken_get (user request)) [DoesNotExist];
   match r with
   | inr _ => sign_in_again msg_wrong_provider
   | inl token =>
       r ← try_except (renew_id_token (id_token token))
                      [ConnectTimeout; ReadTimeout];
       match r with
       | inr _ => sign_in_again msg_network_problem
       | inl new_id_token =>
           if truthy new_id_token then
             now ← timezone_now;
             delta ← lift (timedelta (AUTH0_ID_TOKEN_EXPIRY app_settings));
             expire ← lift (datetime_add now delta);
             let token := mkIdToken new_id_token expire in
             save (user request) token;;
             update_expiration self request;;
             logger_debug ("ValidateIdToken: token renewed for " +:+
                           username (user request));;
             mret None
           else sign_in_again msg_session_expired
       end
   end) w1.
Proof.
  intros He Hx. destruct (eligible_inv _ He) as (Ha & d & Hd & Hin).
  unfold process_request. rewrite Ha.
  rewrite (bind_returned _ _ w w d) by (unfold lift; rewrite Hd; reflexivity).
  rewrite Hin. cbn [negb].
  rewrite (bind_returned _ _ _ _ _ Hx). reflexivity.
Qed.

Lemma sign_in_again_run (text : string) (w : World) :
  sign_in_again text w = (Returned sign_in_redirect, signed_out text w).
Proof. reflexivity. Qed.

(** What [renew_id_token] does, by the answer of the remote endpoint. *)
Lemma renew_id_token_run (tok : pyval) (w : World) :
  renew_id_token tok w =
  (match answer (renewal tok) with
   | Raised e => Raised e
   | Returned response =>
       match body_json response with
       | None => Returned PNone
       | Some result => getattr_get result "id_token"
       end
   end, posted tok w).
Proof.
  unfold renew_id_token. rewrite bind_run. unfold requests_post.
  fold (renewal tok). fold (posted tok w).
  destruct (answer (renewal tok)) as [response|e]; [|reflexivity].
  rewrite bind_run. unfold try_except, response_json.
  destruct (body_json response) as [result|]; reflexivity.
Qed.

Lemma process_request_not_applicable (self : middleware) (request : Request)
    (w : World) :
  applies request = false -> process_request self request w = (Returned None, w).
Proof. intros H. unfold process_request. rewrite H. reflexivity. Qed.

(** After the token is loaded, the request ends as [renew_id_token] ends. *)
Lemma process_request_loaded (self : middleware) (request : Request)
    (w w1 : World) (token : IdToken) :
  eligible request = true ->
  is_expired self request w = (Returned true, w1) ->
  idtokens w1 !! user_id (user request) = Some token ->
  process_request self request w =
  (r ← try_except (renew_id_token (id_token token)) [ConnectTimeout; ReadTimeout];
   match r with
   | inr _ => sign_in_again msg_network_problem
   | inl new_id_token =>
       if truthy new_id_token then
         now ← timezone_now;
         delta ← lift (timedelta (AUTH0_ID_TOKEN_EXPIRY app_settings));
         expire ← lift (datetime_add now delta);
         let token := mkIdToken new_id_token expire in
         save (user request) token;;
         update_expiration self request;;
         logger_debug ("ValidateIdToken: token renewed for " +:+
                       username (user request));;
         mret None
       else sign_in_again msg_session_expired
   end) (emit (IdToken_objects_get (user_id (user request))) w1).
Proof.
  intros He Hx Ht. rewrite (process_request_expired _ _ _ _ He Hx).
  rewrite (bind_returned _ _ _ _ _
             (try_except_returned _ _ _ _ _ (IdToken_get_found _ _ _ Ht))).
  reflexivity.
Qed.

(** A renewal that hands back nothing usable: the user signs in again. *)
Lemma process_request_rejected (self : middleware) (request : Request)
    (w w1 w2 : World) (token : IdToken) (v : pyval) :
  eligible request = true ->
  is_expired self request w = (Returned true, w1) ->
  idtokens w1 !! user_id (user request) = Some token ->
  renew_id_token (id_token token)
    (emit (IdToken_objects_get (user_id (user request))) w1) = (Returned v, w2) ->
  truthy v = false ->
  process_request self request w =
  (Returned sign_in_redirect, signed_out msg_session_expired w2).
Proof.
  intros He Hx Ht Hr Hv. rewrite (process_request_loaded _ _ _ _ _ He Hx Ht).
  rewrite (bind_returned _ _ _ _ _ (try_except_returned _ _ _ _ _ Hr)).
  rewrite Hv. apply sign_in_again_run.
Qed.

Lemma expiration_in_range (now : Z) :
  timedelta_ok (AUTH0_ID_TOKEN_EXPIRY app_settings) = true ->
  datetime_ok (now + microseconds (AUTH0_ID_TOKEN_EXPIRY app_settings)) = true ->
  expiration now =
  Returned (now + microseconds (AUTH0_ID_TOKEN_EXPIRY app_settings)).
Proof.
  intros Hd Ht. unfold expiration, timedelta, datetime_add.
  rewrite Hd, Ht. reflexivity.
Qed.

Lemma expiration_returned (now x : Z) :
  expiration now = Returned x ->
  x = now + microseconds (AUTH0_ID_TOKEN_EXPIRY app_settings) /\
  timedelta_ok (AUTH0_ID_TOKEN_EXPIRY app_settings) = true /\
  datetime_ok x = true.
Proof.
  unfold expiration, timedelta, datetime_add.
  destruct (timedelta_ok _); [|discriminate].
  destruct (datetime_ok _) eqn:Ht; [|discriminate].
  intros H. inversion H. subst. auto.
Qed.

Lemma expiration_raised (now : Z) (e : exn) :
  expiration now = Raised e ->
  e = OverflowError /\
  (timedelta_ok (AUTH0_ID_TOKEN_EXPIRY app_settings) = false \/
   datetime_ok (now + microseconds (AUTH0_ID_TOKEN_EXPIRY app_settings)) = false).
Proof.
  unfold expiration, timedelta, datetime_add.
  destruct (timedelta_ok _); [|intros H; inversion H; auto].
  destruct (datetime_ok _); [discriminate|].
  intros H. inversion H. auto.
Qed.

(** After a renewal that handed back a usable token, the request ends as
    line 150 and the save end. *)
Lemma process_request_usable (self : middleware) (request : Request)
    (w w1 w2 : World) (token : IdToken) (v : pyval) :
  eligible request = true ->
  is_expired self request w = (Returned true, w1) ->
  idtokens w1 !! user_id (user request) = Some token ->
  renew_id_token (id_token token)
    (emit (IdToken_objects_get (user_id (user request))) w1) = (Returned v, w2) ->
  truthy v = true ->
  process_request self request w =
  match expiration (clock w2) with
  | Returned expire =>
      (Returned None,
       emit (Logger_debug ("ValidateIdToken: token renewed for " +:+
                           username (user request)))
         (snd (update_expiration self request
                 (put_idtoken (user_id (user request)) (mkIdToken v expire)
                    (emit (IdToken_save (user_id (user request))
                             (mkIdToken v expire)) w2)))))
  | Raised e => (Raised e, w2)
  end.
Proof.
  intros He Hx Ht Hr Hv.
  rewrite (process_request_loaded _ _ _ _ _ He Hx Ht).
  rewrite (bind_returned _ _ _ _ _ (try_except_returned _ _ _ _ _ Hr)).
  rewrite Hv. rewrite bind_run. cbn [timezone_now].
  rewrite bind_run. unfold lift, expiration.
  destruct (timedelta _) as [delta|e]; [|reflexivity].
  rewrite bind_run.
  destruct (datetime_add _ delta) as [expire|e]; [|reflexivity].
  destruct self; reflexivity.
Qed.

(** ** The claims *)

(** C1, as the code has it: right after [update_expiration] wrote the
    cache entry of a user, the cached [is_expired] answers [True] for that
    user, and it answers [False] once the renewal interval has elapsed.
    The claim states the opposite answers. *)
Theorem cached_is_expired_after_update_expiration (request : Request) (w : World) :
  0 < AUTH0_ID_TOKEN_EXPIRY app_settings ->
  fst (is_expired ValidateIdTokenUsingCache request
         (snd (update_expiration ValidateIdTokenUsingCache request w)))
    = Returned true /\
  forall d : Z,
    microseconds (AUTH0_ID_TOKEN_EXPIRY app_settings) <= d ->
    fst (is_expired ValidateIdTokenUsingCache request
           (advance d (snd (update_expiration ValidateIdTokenUsingCache request w))))
      = Returned false.
Proof.
  intros Hpos. unfold is_expired, update_expiration, cache_set.
  cbn [snd]. split; [|intros d Hd]; rewrite bind_run;
    unfold cache_get, live_entry; cbn [cache put_cache advance emit clock];
    rewrite lookup_insert_eq.
  - replace (clock w <? clock w + microseconds _)%Z with true; [reflexivity|].
    symmetry. apply Z.ltb_lt. unfold microseconds. lia.
  - replace (clock w + d <? clock w + microseconds _)%Z with false; [reflexivity|].
    symmetry. apply Z.ltb_ge. lia.
Qed.

(** C2, as the code has it: for a user without a live cache entry the
    cached [is_expired] answers [False], and with a live entry it answers
    the truth value of the entry, [True] for the entries the module
    writes. The claim states the opposite answers. *)
Theorem cached_is_expired_by_live_entry (request : Request) (w : World) :
  (live_entry (cache_key request) w = None ->
   is_expired ValidateIdTokenUsingCache request w =
   (Returned false, emit (Cache_get (cache_key request)) w)) /\
  (forall v : pyval,
     live_entry (cache_key request) w = Some v ->
     is_expired ValidateIdTokenUsingCache request w =
     (Returned (truthy v), emit (Cache_get (cache_key request)) w)).
Proof.
  split; [intros H | intros v H]; unfold is_expired; rewrite bind_run;
    unfold cache_get; rewrite H; reflexivity.
Qed.

(** C5: the direct [is_expired] answers [True] for a user without a
    TokenRecord, [True] when the record's expiration is strictly before
    now, and [False] when it is in the future. *)
Theorem direct_is_expired (request : Request) (w : World) :
  (idtokens w !! user_id (user request) = None ->
   is_expired ValidateIdToken request w =
   (Returned true, emit (IdToken_objects_get (user_id (user request))) w)) /\
  (forall token : IdToken,
     idtokens w !! user_id (user request) = Some token ->
     expire token < clock w ->
     is_expired ValidateIdToken request w =
     (Returned true, emit (IdToken_objects_get (user_id (user request))) w)) /\
  (forall token : IdToken,
     idtokens w !! user_id (user request) = Some token ->
     clock w < expire token ->
     is_expired ValidateIdToken request w =
     (Returned false, emit (IdToken_objects_get (user_id (user request))) w)).
Proof.
  unfold is_expired. repeat split.
  - intros H.
    rewrite bind_run, (try_except_raised _ _ _ _ _ (IdToken_get_missing _ _ H)).
    reflexivity.
  - intros token H Hlt.
    rewrite (bind_returned _ _ _ _ _
               (try_except_returned _ _ _ _ _ (IdToken_get_found _ _ _ H))).
    rewrite bind_run. cbn [timezone_now].
    replace (expire token <? clock _)%Z with true; [reflexivity|].
    symmetry. apply Z.ltb_lt. exact Hlt.
  - intros token H Hlt.
    rewrite (bind_returned _ _ _ _ _
               (try_except_returned _ _ _ _ _ (IdToken_get_found _ _ _ H))).
    rewrite bind_run. cbn [timezone_now].
    replace (expire token <? clock _)%Z with false; [reflexivity|].
    symmetry. apply Z.ltb_ge. cbn [clock emit]. lia.
Qed.

(** C3, amended: for an eligible request whose token is expired and has a
    TokenRecord, a renewal call that raises [ConnectTimeout] or
    [ReadTimeout] ends in a logout, a message that mentions a temporary
    network problem and a redirect to the sign-in view; a renewal call
    that raises any other exception is not handled, and the exception
    leaves [process_request]. *)
Theorem process_request_renewal_raises (self : middleware) (request : Request)
    (w w1 w2 : World) (token : IdToken) (e : exn) :
  eligible request = true ->
  is_expired self request w = (Returned true, w1) ->
  idtokens w1 !! user_id (user request) = Some token ->
  renew_id_token (id_token token)
    (emit (IdToken_objects_get (user_id (user request))) w1) = (Raised e, w2) ->
  (e = ConnectTimeout \/ e = ReadTimeout ->
   process_request self request w =
   (Returned (Some (HttpResponseRedirect (reverse (AUTH0_SIGNIN_VIEW app_settings)))),
    signed_out msg_network_problem w2)) /\
  (e <> ConnectTimeout -> e <> ReadTimeout ->
   process_request self request w = (Raised e, w2)) /\
  mentions "temporary network problem" msg_network_problem = true.
Proof.
  intros He Hx Ht Hr. rewrite (process_request_loaded _ _ _ _ _ He Hx Ht).
  rewrite bind_run, (try_except_raised _ _ _ _ _ Hr).
  repeat split.
  - intros [-> | ->]; reflexivity.
  - intros H1 H2. destruct e; try reflexivity; congruence.
Qed.

(** C4, amended: for an eligible request whose token is expired, whose
    TokenRecord exists and whose renewal hands back a new token value,
    when the renewal interval is a [timedelta] and now plus the interval a
    [datetime], the record gets the new token value and the expiration now
    plus the renewal interval in one save, [update_expiration] is called,
    the renewal is logged and [process_request] returns [None]; when not,
    line 150 raises [OverflowError] after the renewal call, and nothing is
    saved. *)
Theorem process_request_renewed (self : middleware) (request : Request)
    (w w1 w2 : World) (token : IdToken) (new_id_token : pyval) :
  eligible request = true ->
  is_expired self request w = (Returned true, w1) ->
  idtokens w1 !! user_id (user request) = Some token ->
  renew_id_token (id_token token)
    (emit (IdToken_objects_get (user_id (user request))) w1)
    = (Returned new_id_token, w2) ->
  truthy new_id_token = true ->
  let uid := user_id (user request) in
  let interval := AUTH0_ID_TOKEN_EXPIRY app_settings in
  let renewed := mkIdToken new_id_token (clock w2 + microseconds interval) in
  let line :=
    Logger_debug ("ValidateIdToken: token renewed for " +:+ username (user request)) in
  let w3 := put_idtoken uid renewed (emit (IdToken_save uid renewed) w2) in
  let w4 := snd (update_expiration self request w3) in
  (timedelta_ok interval = true ->
   datetime_ok (clock w2 + microseconds interval) = true ->
   process_request self request w = (Returned None, emit line w4) /\
   idtokens (emit line w4) !! uid = Some renewed /\
   trace (emit line w4) =
     (trace w2 ++ [IdToken_save uid renewed] ++
      match self with
      | ValidateIdToken => []
      | ValidateIdTokenUsingCache =>
          [Cache_set (cache_key request) (PBool true) interval]
      end ++ [line])%list) /\
  (timedelta_ok interval = false \/
   datetime_ok (clock w2 + microseconds interval) = false ->
   process_request self request w = (Raised OverflowError, w2)).
Proof.
  intros He Hx Ht Hr Hv uid interval renewed line w3 w4.
  rewrite (process_request_usable _ _ _ _ _ _ _ He Hx Ht Hr Hv).
  split.
  - intros Hd Hs. rewrite (expiration_in_range _ Hd Hs).
    subst w4 w3 line renewed interval uid.
    destruct self; cbn; rewrite ?lookup_insert_eq, <- ?app_assoc; auto.
  - intros Hout. unfold expiration, timedelta, datetime_add.
    fold interval. destruct Hout as [Hd | Hs].
    + rewrite Hd. reflexivity.
    + destruct (timedelta_ok interval); [rewrite Hs|]; reflexivity.
Qed.

(** C6: for an eligible request whose token is reported expired while the
    user has no TokenRecord, [process_request] logs the user out, leaves a
    message of its own that points to the right sign-in provider, and
    returns a redirect to the sign-in view. *)
Theorem process_request_missing_record (self : middleware) (request : Request)
    (w w1 : World) :
  eligible request = true ->
  is_expired self request w = (Returned true, w1) ->
  idtokens w1 !! user_id (user request) = None ->
  process_request self request w =
  (Returned (Some (HttpResponseRedirect (reverse (AUTH0_SIGNIN_VIEW app_settings)))),
   signed_out msg_wrong_provider
     (emit (IdToken_objects_get (user_id (user request))) w1)) /\
  mentions "Please log in with the Mozilla LDAP provider" msg_wrong_provider = true /\
  msg_wrong_provider <> msg_network_problem /\
  msg_wrong_provider <> msg_session_expired.
Proof.
  intros He Hx Ht. rewrite (process_request_expired _ _ _ _ He Hx).
  rewrite bind_run, (try_except_raised _ _ _ _ _ (IdToken_get_missing _ _ Ht)).
  repeat split; discriminate.
Qed.

(** C8: a request whose path is the path of the configured callback URL
    goes through [process_request] without any expiry check or renewal:
    it returns [None] and the world is as before, whatever the state of
    the user's token. *)
Theorem process_request_callback_path (self : middleware) (request : Request)
    (w : World) :
  path request = urlparse_path (AUTH0_CALLBACK_URL app_settings) ->
  process_request self request w = (Returned None, w).
Proof.
  intros H. apply process_request_not_applicable. unfold applies.
  rewrite (bool_decide_eq_true_2 (path request ∈ exception_paths)).
  - apply andb_false_r.
  - unfold exception_paths. rewrite H. apply list_elem_of_here.
Qed.

(** C9: a request of a user whose email domain is not among the
    configured domains goes through [process_request] without any effect:
    it returns [None] and the world, the history of collaborator calls
    included, is as before. *)
Theorem process_request_other_domain (self : middleware) (request : Request)
    (w : World) (domain : string) :
  email_domain request = Returned domain ->
  domain ∉ AUTH0_ID_TOKEN_DOMAINS app_settings ->
  process_request self request w = (Returned None, w).
Proof.
  intros Hd Hout. destruct (applies request) eqn:Ha.
  - unfold process_request. rewrite Ha.
    rewrite (bind_returned _ _ w w domain) by exact (f_equal (fun o => (o, w)) Hd).
    rewrite (bool_decide_eq_false_2 _ Hout). reflexivity.
  - apply process_request_not_applicable, Ha.
Qed.

(** C10: a request that passes the first conditions (not a POST, not
    AJAX, active user, email not empty, path not excepted) while the email
    has no '@' makes [process_request] raise [IndexError]. *)
Theorem process_request_email_without_at (self : middleware) (request : Request)
    (w : World) :
  method request <> "POST" ->
  is_ajax request = false ->
  is_active (user request) = true ->
  email (user request) <> "" ->
  path request ∉ exception_paths ->
  occurs "@" (email (user request)) = false ->
  process_request self request w = (Raised IndexError, w).
Proof.
  intros Hm Hj Hu Hne Hp Hat. unfold process_request, applies.
  rewrite Hj, Hu, (bool_decide_eq_false_2 _ Hp).
  rewrite (proj2 (String.eqb_neq _ _) Hm), (proj2 (String.eqb_neq _ _) Hne).
  cbn [negb andb].
  apply bind_raised. unfold lift.
  fold (email_domain request). rewrite (email_domain_absent _ Hat). reflexivity.
Qed.

(** ** Further facts: how a request runs, path by path *)

Lemma renew_id_token_result (tok : pyval) (w : World) :
  renew_id_token tok w = (renewal_result tok, posted tok w).
Proof. apply renew_id_token_run. Qed.

Lemma is_expired_run (self : middleware) (request : Request) (w : World) :
  exists b : bool,
    is_expired self request w = (Returned b, emit (expiry_query self request) w).
Proof.
  destruct self; unfold is_expired; rewrite bind_run.
  - unfold try_except, IdToken_get.
    destruct (idtokens w !! user_id (user request)); eexists; reflexivity.
  - eexists; reflexivity.
Qed.

(** Every path of [process_request], by the values that select it. *)
Lemma process_request_run (self : middleware) (request : Request) (w : World) :
  process_request self request w =
  if applies request then
    match email_domain request with
    | Raised e => (Raised e, w)
    | Returned domain =>
        if bool_decide (domain ∈ AUTH0_ID_TOKEN_DOMAINS app_settings) then
          match is_expired self request w with
          | (Raised e, w1) => (Raised e, w1)
          | (Returned false, w1) => (Returned None, w1)
          | (Returned true, w1) =>
              let uid := user_id (user request) in
              let w1' := emit (IdToken_objects_get uid) w1 in
              match idtokens w1 !! uid with
              | None => (Returned sign_in_redirect, signed_out msg_wrong_provider w1')
              | Some token =>
                  let w2 := posted (id_token token) w1' in
                  match renewal_result (id_token token) with
                  | Raised e =>
                      if caught_by [ConnectTimeout; ReadTimeout] e
                      then (Returned sign_in_redirect,
                            signed_out msg_network_problem w2)
                      else (Raised e, w2)
                  | Returned v =>
                      if truthy v then
                        match expiration (clock w2) with
                        | Returned expire =>
                            let renewed := mkIdToken v expire in
                            (Returned None,
                             emit (Logger_debug
                                     ("ValidateIdToken: token renewed for "
                                      +:+ username (user request)))
                               (snd (update_expiration self request
                                       (put_idtoken uid renewed
                                          (emit (IdToken_save uid renewed) w2)))))
                        | Raised e => (Raised e, w2)
                        end
                      else (Returned sign_in_redirect,
                            signed_out msg_session_expired w2)
                  end
              end
          end
        else (Returned None, w)
    end
  else (Returned None, w).
Proof.
  destruct (applies request) eqn:Ha;
    [|apply process_request_not_applicable, Ha].
  destruct (email_domain request) as [domain|e] eqn:Hd.
  - destruct (bool_decide (domain ∈ AUTH0_ID_TOKEN_DOMAINS app_settings)) eqn:Hin.
    + assert (He : eligible request = true).
      { unfold eligible. rewrite Ha, Hd, Hin. reflexivity. }
      destruct (is_expired_run self request w) as [b Hx]. rewrite Hx.
      destruct b.
      * cbv zeta.
        destruct (idtokens (emit (expiry_query self request) w)
                    !! user_id (user request)) as [token|] eqn:Ht.
        -- destruct (renewal_result (id_token token)) as [v|e] eqn:Hr.
           ++ destruct (truthy v) eqn:Hv.
              ** apply (process_request_usable _ _ _ _ _ _ _ He Hx Ht); [|exact Hv].
                 rewrite renew_id_token_result, Hr. reflexivity.
              ** rewrite (process_request_loaded _ _ _ _ _ He Hx Ht).
                 rewrite bind_run. unfold try_except.
                 rewrite renew_id_token_result, Hr, Hv. reflexivity.
           ++ rewrite (process_request_loaded _ _ _ _ _ He Hx Ht).
              rewrite bind_run. unfold try_except.
              rewrite renew_id_token_result, Hr.
              destruct (caught_by _ e); reflexivity.
        -- rewrite (process_request_expired _ _ _ _ He Hx).
           rewrite bind_run,
             (try_except_raised _ _ _ _ _ (IdToken_get_missing _ _ Ht)).
           reflexivity.
      * unfold process_request. rewrite Ha.
        rewrite (bind_returned _ _ w w domain)
          by exact (f_equal (fun o => (o, w)) Hd).
        rewrite Hin. cbn [negb]. rewrite (bind_returned _ _ _ _ _ Hx).
        reflexivity.
    + unfold process_request. rewrite Ha.
      rewrite (bind_returned _ _ w w domain)
        by exact (f_equal (fun o => (o, w)) Hd).
      rewrite Hin. reflexivity.
  - unfold process_request. rewrite Ha.
    apply bind_raised. exact (f_equal (fun o => (o, w)) Hd).
Qed.

Lemma dict_get_absent (items : list (string * pyval)) (key : string) :
  has_key key items = false -> dict_get items key = PNone.
Proof.
  induction items as [|[k v] rest IH]; cbn; [reflexivity|].
  intros H. apply orb_false_iff in H as [Hk Hrest].
  rewrite Hk. apply IH, Hrest.
Qed.

Lemma dict_get_first (pre post : list (string * pyval)) (key : string) (v : pyval) :
  has_key key pre = false -> dict_get (pre ++ (key, v) :: post) key = v.
Proof.
  induction pre as [|[k x] rest IH]; cbn.
  - rewrite String.eqb_refl. reflexivity.
  - intros H. apply orb_false_iff in H as [Hk Hrest].
    rewrite Hk. apply IH, Hrest.
Qed.

Lemma partition_first (sep : ascii) (a b : string) :
  occurs sep a = false -> partition sep (a +:+ String sep b) = Some (a, b).
Proof.
  induction a as [|c r IH]; intros H.
  - change (partition sep (String sep b) = Some (EmptyString, b)).
    cbn. rewrite Ascii.eqb_refl. reflexivity.
  - change (partition sep (String c (r +:+ String sep b)) = Some (String c r, b)).
    cbn in H. apply orb_false_iff in H as [Hc Hr].
    cbn. rewrite Hc, (IH Hr). reflexivity.
Qed.

Lemma lower_ascii_app (a b : string) :
  lower_ascii (a +:+ b) = lower_ascii a +:+ lower_ascii b.
Proof.
  induction a as [|c r IH]; [reflexivity|].
  change (lower_ascii (String c (r +:+ b)) =
          String (ascii_lower c) (lower_ascii r +:+ lower_ascii b)).
  cbn. rewrite IH. reflexivity.
Qed.

Lemma cache_key_inj (r1 r2 : Request) :
  cache_key r1 = cache_key r2 -> user_id (user r1) = user_id (user r2).
Proof.
  unfold cache_key. intros H.
  apply (inj (String.app "auth0:renew_id_token:")) in H.
  apply (inj pretty) in H. exact H.
Qed.

Lemma update_expiration_idtokens (self : middleware) (request : Request) (w : World) :
  idtokens (snd (update_expiration self request w)) = idtokens w.
Proof. destruct self; reflexivity. Qed.

Lemma update_expiration_session (self : middleware) (request : Request) (w : World) :
  session (snd (update_expiration self request w)) = session w.
Proof. destruct self; reflexivity. Qed.

Lemma update_expiration_trace (self : middleware) (request : Request) (w : World) :
  exists l, trace (snd (update_expiration self request w)) = (trace w ++ l)%list /\
            calls is_post l = 0%nat /\ calls is_save l = 0%nat.
Proof.
  destruct self.
  - exists []. cbn. rewrite app_nil_r. auto.
  - eexists [_]. cbn. auto.
Qed.

Lemma is_expired_direct_found (request : Request) (w : World) (token : IdToken) :
  idtokens w !! user_id (user request) = Some token ->
  is_expired ValidateIdToken request w =
  (Returned (expire token <? clock w)%Z,
   emit (IdToken_objects_get (user_id (user request))) w).
Proof.
  intros Ht. unfold is_expired.
  rewrite bind_run, (try_except_returned _ _ _ _ _ (IdToken_get_found _ _ _ Ht)).
  reflexivity.
Qed.

Lemma is_expired_direct_missing (request : Request) (w : World) :
  idtokens w !! user_id (user request) = None ->
  is_expired ValidateIdToken request w =
  (Returned true, emit (IdToken_objects_get (user_id (user request))) w).
Proof.
  intros Ht. unfold is_expired.
  rewrite bind_run, (try_except_raised _ _ _ _ _ (IdToken_get_missing _ _ Ht)).
  reflexivity.
Qed.

Lemma is_expired_cached_run (request : Request) (w : World) :
  is_expired ValidateIdTokenUsingCache request w =
  (Returned (truthy (default PNone (live_entry (cache_key request) w))),
   emit (Cache_get (cache_key request)) w).
Proof. reflexivity. Qed.

(** ** Further properties of the module *)

(** [renew_id_token] raises in two cases only: [requests.post] raised, and
    the same exception goes on; or the body decoded to JSON that is not an
    object, and looking up [get] on it raises [AttributeError]. A body
    that does not decode raises nothing. *)
Theorem renew_id_token_raises_iff (tok : pyval) (w : World) (e : exn) :
  fst (renew_id_token tok w) = Raised e <->
  answer (renewal tok) = Raised e \/
  (e = AttributeError /\
   exists response result,
     answer (renewal tok) = Returned response /\
     body_json response = Some result /\
     is_object result = false).
Proof.
  rewrite renew_id_token_result. cbn [fst]. unfold renewal_result. split.
  - destruct (answer (renewal tok)) as [response|e'] eqn:Ha.
    + destruct (body_json response) as [result|] eqn:Hb; [|discriminate].
      destruct result; cbn; intros H; inversion H; subst;
        right; split; eauto.
    + intros H. left. inversion H. reflexivity.
  - intros [-> | (-> & response & result & -> & -> & Hobj)]; [reflexivity|].
    destruct result; try reflexivity. discriminate.
Qed.

(** When the body decodes to a JSON object, [renew_id_token] returns its
    [id_token] item: [None] when the object has no such key, else the value
    under that key. *)
Theorem renew_id_token_json_object (tok : pyval) (w : World)
    (response : Response) (items : list (string * pyval)) :
  answer (renewal tok) = Returned response ->
  body_json response = Some (PDict items) ->
  renew_id_token tok w = (Returned (dict_get items "id_token"), posted tok w) /\
  (has_key "id_token" items = false -> dict_get items "id_token" = PNone) /\
  (forall pre v post,
     items = (pre ++ ("id_token", v) :: post)%list ->
     has_key "id_token" pre = false ->
     dict_get items "id_token" = v).
Proof.
  intros Ha Hb. rewrite renew_id_token_result. unfold renewal_result.
  rewrite Ha, Hb. repeat split.
  - apply dict_get_absent.
  - intros pre v post -> Hpre. apply dict_get_first, Hpre.
Qed.

(** Whatever the endpoint answers, [renew_id_token] makes one POST to the
    delegation URL with the client id, the fixed api and grant types and
    the token at hand, under the configured timeout; it changes neither
    the IdToken table nor the cache nor the session, and takes the time
    the exchange takes. *)
Theorem renew_id_token_single_post (tok : pyval) (w : World) :
  trace (snd (renew_id_token tok w)) =
    (trace w ++
     [Requests_post
        ("https://" +:+ AUTH0_DOMAIN app_settings +:+ "/delegation")
        (PDict [("client_id", PStr (AUTH0_CLIENT_ID app_settings));
                ("api_type", PStr "app");
                ("grant_type", PStr "urn:ietf:params:oauth:grant-type:jwt-bearer");
                ("id_token", tok)])
        (AUTH0_PATIENCE_TIMEOUT app_settings)])%list /\
  idtokens (snd (renew_id_token tok w)) = idtokens w /\
  cache (snd (renew_id_token tok w)) = cache w /\
  session (snd (renew_id_token tok w)) = session w /\
  clock (snd (renew_id_token tok w)) = clock w + elapsed (renewal tok).
Proof. rewrite renew_id_token_result. repeat split. Qed.

(** A POST, an AJAX request, a request of an inactive user and a request
    of a user without email go through [process_request] untouched: it
    returns [None] and calls no collaborator. *)
Theorem process_request_skipped (self : middleware) (request : Request)
    (w : World) :
  method request = "POST" \/ is_ajax request = true \/
  is_active (user request) = false \/ email (user request) = "" ->
  process_request self request w = (Returned None, w).
Proof.
  intros H. apply process_request_not_applicable. unfold applies.
  destruct H as [H | [H | [H | H]]]; rewrite H; cbn;
    rewrite ?andb_false_r; reflexivity.
Qed.

(** Under [ValidateIdToken], an eligible request of a user whose record
    expires now or later is let through: [process_request] returns [None]
    after the one lookup of the record. A record that expires exactly now
    does not count as expired. *)
Theorem process_request_valid_token (request : Request) (w : World)
    (token : IdToken) :
  eligible request = true ->
  idtokens w !! user_id (user request) = Some token ->
  clock w <= expire token ->
  process_request ValidateIdToken request w =
  (Returned None, emit (IdToken_objects_get (user_id (user request))) w).
Proof.
  intros He Ht Hle. destruct (eligible_inv _ He) as (Ha & d & Hd & Hin).
  rewrite process_request_run, Ha. fold (email_domain request) in Hd.
  rewrite Hd, Hin.
  unfold is_expired. rewrite bind_run.
  rewrite (try_except_returned _ _ _ _ _ (IdToken_get_found _ _ _ Ht)).
  rewrite bind_run. cbn [timezone_now].
  replace (expire token <? clock _)%Z with false; [reflexivity|].
  symmetry. apply Z.ltb_ge. exact Hle.
Qed.

(** A renewal answered by a JSON object whose [id_token] is missing or
    falsy (None, empty string, zero ...) ends the session: message about an
    expired authentication session, logout, redirect to the sign-in view;
    the IdToken table is left as it was. *)
Theorem process_request_renewal_declined (self : middleware) (request : Request)
    (w w1 : World) (token : IdToken) (response : Response)
    (items : list (string * pyval)) :
  eligible request = true ->
  is_expired self request w = (Returned true, w1) ->
  idtokens w1 !! user_id (user request) = Some token ->
  answer (renewal (id_token token)) = Returned response ->
  body_json response = Some (PDict items) ->
  truthy (dict_get items "id_token") = false ->
  process_request self request w =
  (Returned (Some (HttpResponseRedirect (reverse (AUTH0_SIGNIN_VIEW app_settings)))),
   signed_out msg_session_expired
     (posted (id_token token)
        (emit (IdToken_objects_get (user_id (user request))) w1))) /\
  idtokens (snd (process_request self request w)) = idtokens w1.
Proof.
  intros He Hx Ht Ha Hb Hv.
  assert (Hrun : process_request self request w =
    (Returned sign_in_redirect,
     signed_out msg_session_expired
       (posted (id_token token)
          (emit (IdToken_objects_get (user_id (user request))) w1)))).
  { apply (process_request_rejected _ _ _ _ _ token
             (dict_get items "id_token") He Hx Ht); [|exact Hv].
    rewrite renew_id_token_result. unfold renewal_result.
    rewrite Ha, Hb. reflexivity. }
  rewrite Hrun. split; reflexivity.
Qed.

(** Case analysis along the paths of [process_request]. *)
Ltac request_paths self request w :=
  rewrite !(process_request_run self request w);
  destruct (applies request) eqn:?;
  [ destruct (email_domain request) as [?domain|?e] eqn:?;
    [ destruct (bool_decide (_ ∈ AUTH0_ID_TOKEN_DOMAINS _)) eqn:?;
      [ let b := fresh "expired" in
        destruct (is_expired_run self request w) as [b ->];
        destruct b;
        [ cbv zeta; cbn [idtokens emit];
          destruct (idtokens w !! user_id (user request)) as [?token|] eqn:?;
          [ match goal with
            | |- context [renewal_result ?t] =>
                destruct (renewal_result t) as [?v|?e] eqn:?;
                [ destruct (truthy _) eqn:?;
                  [ destruct (expiration _) as [?expire|?e] eqn:? | ]
                | destruct (caught_by _ _) eqn:? ]
            end
          | ]
        | ]
      | ]
    | ]
  | ].

(** [process_request] neither creates nor deletes an IdToken record, and
    leaves the records of all other users as they are, however it ends. *)
Theorem process_request_keeps_records (self : middleware) (request : Request)
    (w : World) :
  dom (idtokens (snd (process_request self request w))) = dom (idtokens w) /\
  forall uid : Z,
    uid <> user_id (user request) ->
    idtokens (snd (process_request self request w)) !! uid = idtokens w !! uid.
Proof.
  request_paths self request w; cbn [snd]; try (split; reflexivity).
  cbn [idtokens emit]. rewrite !update_expiration_idtokens.
  cbn [idtokens emit put_idtoken posted advance].
  split.
  - apply dom_insert_lookup_L. eauto.
  - intros uid Hne. apply lookup_insert_ne. congruence.
Qed.

Lemma email_domain_raises (request : Request) (e : exn) :
  email_domain request = Raised e ->
  e = IndexError /\ occurs "@" (email (user request)) = false.
Proof.
  unfold email_domain, split1. intros H.
  destruct (occurs "@" (email (user request))) eqn:Hat.
  - destruct (partition_lower_present _ Hat) as (a & b & Hp).
    rewrite Hp in H. discriminate.
  - rewrite (partition_lower_absent _ Hat) in H. inversion H. auto.
Qed.

(** A redirect is always the one to the sign-in view and always comes
    with a flushed session, the IdToken table and the cache being left
    alone; when [process_request] returns [None] or raises, the session is
    not touched. *)
Theorem process_request_redirect_is_logout (self : middleware)
    (request : Request) (w : World) :
  (forall response : HttpResponse,
     fst (process_request self request w) = Returned (Some response) ->
     response = HttpResponseRedirect (reverse (AUTH0_SIGNIN_VIEW app_settings)) /\
     session (snd (process_request self request w)) = None /\
     idtokens (snd (process_request self request w)) = idtokens w /\
     cache (snd (process_request self request w)) = cache w) /\
  (fst (process_request self request w) = Returned None ->
   session (snd (process_request self request w)) = session w) /\
  (forall e : exn,
     fst (process_request self request w) = Raised e ->
     session (snd (process_request self request w)) = session w /\
     idtokens (snd (process_request self request w)) = idtokens w /\
     cache (snd (process_request self request w)) = cache w).
Proof.
  request_paths self request w; cbn [fst snd];
    (split; [intros response H | split; [intros H | intros e' H]]);
    try discriminate H;
    try (inversion H; subst; repeat split; reflexivity);
    try (repeat split; reflexivity).
  cbn [session emit]. rewrite update_expiration_session. reflexivity.
Qed.

(** [process_request] never lets a [ConnectTimeout] or a [ReadTimeout]
    out. What it raises is the [IndexError] of an email without '@', with
    nothing done; or what the renewal of the user's token raised; or the
    [OverflowError] of line 150, after a renewal that handed back a usable
    token, when the interval is no [timedelta] or the new expiration no
    [datetime], and then no record is changed. *)
Theorem process_request_raises (self : middleware) (request : Request)
    (w : World) (e : exn) :
  fst (process_request self request w) = Raised e ->
  caught_by [ConnectTimeout; ReadTimeout] e = false /\
  ((e = IndexError /\ occurs "@" (email (user request)) = false /\
    snd (process_request self request w) = w) \/
   (exists token : IdToken,
      idtokens w !! user_id (user request) = Some token /\
      renewal_result (id_token token) = Raised e) \/
   (e = OverflowError /\
    exists (token : IdToken) (v : pyval),
      idtokens w !! user_id (user request) = Some token /\
      renewal_result (id_token token) = Returned v /\
      truthy v = true /\
      (timedelta_ok (AUTH0_ID_TOKEN_EXPIRY app_settings) = false \/
       datetime_ok (clock w + elapsed (renewal (id_token token)) +
                    microseconds (AUTH0_ID_TOKEN_EXPIRY app_settings)) = false) /\
      idtokens (snd (process_request self request w)) = idtokens w)).
Proof.
  request_paths self request w; cbn [fst snd]; intros H;
    try discriminate H; inversion H; subst.
  - match goal with
    | Hx : expiration _ = Raised _ |- _ =>
        destruct (expiration_raised _ _ Hx) as [-> Hout]
    end.
    split; [reflexivity|]. right. right. split; [reflexivity|].
    eexists _, _. repeat split; eauto.
  - split; [assumption|]. right. left. eauto.
  - match goal with
    | Hd : email_domain request = Raised _ |- _ =>
        destruct (email_domain_raises _ _ Hd) as [-> Hat]
    end.
    split; [reflexivity|]. left. auto.
Qed.


(** Under [ValidateIdToken] a renewal settles the matter for the renewal
    interval: when the interval is a [timedelta] and the new expiration a
    [datetime], after an expired token was renewed the record holds the
    new token with the expiration one interval after the end of the
    exchange, and a further request of the same user at any time up to
    that expiration is let through after the one lookup of the record. *)
Theorem process_request_direct_settles (request : Request) (w : World)
    (token : IdToken) (v : pyval) (d : Z) :
  eligible request = true ->
  idtokens w !! user_id (user request) = Some token ->
  expire token < clock w ->
  renewal_result (id_token token) = Returned v ->
  truthy v = true ->
  timedelta_ok (AUTH0_ID_TOKEN_EXPIRY app_settings) = true ->
  datetime_ok (clock w + elapsed (renewal (id_token token)) +
               microseconds (AUTH0_ID_TOKEN_EXPIRY app_settings)) = true ->
  0 <= d <= microseconds (AUTH0_ID_TOKEN_EXPIRY app_settings) ->
  fst (process_request ValidateIdToken request w) = Returned None /\
  idtokens (snd (process_request ValidateIdToken request w))
    !! user_id (user request) =
    Some (mkIdToken v
            (clock w + elapsed (renewal (id_token token)) +
             microseconds (AUTH0_ID_TOKEN_EXPIRY app_settings))) /\
  process_request ValidateIdToken request
    (advance d (snd (process_request ValidateIdToken request w))) =
  (Returned None,
   emit (IdToken_objects_get (user_id (user request)))
     (advance d (snd (process_request ValidateIdToken request w)))).
Proof.
  intros He Ht Hexp Hr Hv Hdelta Hsum Hd.
  pose proof (is_expired_direct_found request w token Ht) as Hx.
  replace (expire token <? clock w)%Z with true in Hx
    by (symmetry; apply Z.ltb_lt; exact Hexp).
  destruct (eligible_inv _ He) as (Ha & dom & Hdom & Hin).
  fold (email_domain request) in Hdom.
  assert (Hrun : process_request ValidateIdToken request w =
    (Returned None,
     emit (Logger_debug ("ValidateIdToken: token renewed for " +:+
                         username (user request)))
       (put_idtoken (user_id (user request))
          (mkIdToken v
             (clock w + elapsed (renewal (id_token token)) +
              microseconds (AUTH0_ID_TOKEN_EXPIRY app_settings)))
          (emit (IdToken_save (user_id (user request))
                   (mkIdToken v
                      (clock w + elapsed (renewal (id_token token)) +
                       microseconds (AUTH0_ID_TOKEN_EXPIRY app_settings))))
             (posted (id_token token)
                (emit (IdToken_objects_get (user_id (user request)))
                   (emit (IdToken_objects_get (user_id (user request))) w))))))).
  { rewrite process_request_run, Ha, Hdom, Hin, Hx. cbv zeta.
    cbn [idtokens emit]. rewrite Ht, Hr, Hv.
    rewrite (expiration_in_range _ Hdelta) by exact Hsum. reflexivity. }
  rewrite Hrun. cbn [fst snd]. split; [reflexivity|]. split.
  - cbn [idtokens emit put_idtoken]. apply lookup_insert_eq.
  - rewrite process_request_run, Ha, Hdom, Hin.
    erewrite is_expired_direct_found
      by (cbn [idtokens emit put_idtoken advance]; apply lookup_insert_eq).
    replace (expire _ <? clock _)%Z with false; [reflexivity|].
    symmetry. apply Z.ltb_ge.
    cbn [clock emit put_idtoken advance posted expire]. lia.
Qed.

(** Under [ValidateIdTokenUsingCache], an eligible request of a user
    without a live cache entry is let through without any renewal:
    [process_request] returns [None] after the one cache lookup, and as
    time goes by the user still has no live entry. *)
Theorem process_request_cached_without_entry (request : Request) (w : World) :
  eligible request = true ->
  live_entry (cache_key request) w = None ->
  process_request ValidateIdTokenUsingCache request w =
    (Returned None, emit (Cache_get (cache_key request)) w) /\
  forall d : Z,
    0 <= d ->
    live_entry (cache_key request)
      (advance d (snd (process_request ValidateIdTokenUsingCache request w)))
    = None.
Proof.
  intros He Hlive.
  destruct (eligible_inv _ He) as (Ha & dom & Hdom & Hin).
  fold (email_domain request) in Hdom.
  assert (Hrun : process_request ValidateIdTokenUsingCache request w =
                 (Returned None, emit (Cache_get (cache_key request)) w)).
  { rewrite process_request_run, Ha, Hdom, Hin.
    rewrite is_expired_cached_run, Hlive. reflexivity. }
  rewrite Hrun. split; [reflexivity|]. intros d Hd.
  cbn [snd]. unfold live_entry in *. cbn [cache clock advance emit].
  destruct (cache w !! cache_key request) as [[x exp]|]; [|reflexivity].
  destruct (clock w <? exp)%Z eqn:Hlt; [discriminate|].
  apply Z.ltb_ge in Hlt.
  replace (clock w + d <? exp)%Z with false; [reflexivity|].
  symmetry. apply Z.ltb_ge. lia.
Qed.

(** The cache keys of two users differ, so [update_expiration] for one
    user changes neither the live cache entry of another user nor what
    [is_expired] answers for that user. *)
Theorem update_expiration_other_user (self : middleware) (r1 r2 : Request)
    (w : World) :
  user_id (user r1) <> user_id (user r2) ->
  live_entry (cache_key r2) (snd (update_expiration self r1 w)) =
    live_entry (cache_key r2) w /\
  fst (is_expired self r2 (snd (update_expiration self r1 w))) =
    fst (is_expired self r2 w).
Proof.
  intros Hne.
  assert (Hkey : cache_key r1 <> cache_key r2).
  { intros H. apply Hne, cache_key_inj, H. }
  assert (Hlive : live_entry (cache_key r2) (snd (update_expiration self r1 w)) =
                  live_entry (cache_key r2) w).
  { destruct self; [reflexivity|].
    unfold live_entry. cbn [snd update_expiration cache_set cache clock
                            put_cache emit].
    rewrite (lookup_insert_ne _ _ _ _ Hkey). reflexivity. }
  split; [exact Hlive|].
  destruct self; [reflexivity|].
  unfold is_expired. rewrite !bind_run. unfold cache_get.
  rewrite Hlive. reflexivity.
Qed.

(** For an ASCII email, the domain checked against the configured domains
    is the text after the first '@' with A-Z turned into a-z. *)
Theorem email_domain_of_address (request : Request) (name domain : string) :
  email (user request) = name +:+ String "@" domain ->
  is_ascii (email (user request)) = true ->
  occurs "@" name = false ->
  email_domain request = Returned (lower_ascii domain).
Proof.
  intros Hmail Hascii Hname. unfold email_domain, split1.
  rewrite (str_lower_ascii lower _ Hascii), Hmail, lower_ascii_app.
  change (lower_ascii (String "@" domain))
    with (String "@" (lower_ascii domain)).
  rewrite partition_first by (rewrite occurs_lower_ascii; exact Hname).
  reflexivity.
Qed.

(** [is_expired] never raises, for either class: a missing record is
    answered, not propagated. It makes its one query and changes nothing
    else. *)
Theorem is_expired_only_asks (self : middleware) (request : Request) (w : World) :
  exists b : bool,
    is_expired self request w = (Returned b, emit (expiry_query self request) w).
Proof.
  destruct self.
  - destruct (idtokens w !! user_id (user request)) as [token|] eqn:Ht.
    + exists (expire token <? clock w)%Z. apply is_expired_direct_found, Ht.
    + exists true. apply is_expired_direct_missing, Ht.
  - exists (truthy (default PNone (live_entry (cache_key request) w))).
    reflexivity.
Qed.

(** [ValidateIdToken] never writes to the cache, and either class leaves
    the cache entries of all keys but the user's own as they are. *)
Theorem process_request_cache_frame (request : Request) (w : World) :
  cache (snd (process_request ValidateIdToken request w)) = cache w /\
  forall (self : middleware) (key : string),
    key <> cache_key request ->
    cache (snd (process_request self request w)) !! key = cache w !! key.
Proof.
  split.
  - request_paths ValidateIdToken request w; reflexivity.
  - intros self key Hkey.
    destruct self;
      [ request_paths ValidateIdToken request w
      | request_paths ValidateIdTokenUsingCache request w ];
      try reflexivity.
    cbn [snd cache emit update_expiration cache_set put_cache].
    apply lookup_insert_ne. congruence.
Qed.

Lemma history_tail (h x before : list event) (text : string) :
  x = (h ++ before)%list ->
  ((x ++ [Messages_error text true]) ++ [Logout])%list =
  (h ++ before ++ [Messages_error text true; Logout])%list.
Proof. intros ->. rewrite <- !app_assoc. reflexivity. Qed.

(** Whenever [process_request] redirects, the last two calls it made are
    [messages.error], with one of the three texts and [fail_silently]
    set, and then [logout]; and it saved no record. *)
Theorem process_request_redirect_history (self : middleware) (request : Request)
    (w : World) (response : HttpResponse) :
  fst (process_request self request w) = Returned (Some response) ->
  exists (before : list event) (text : string),
    trace (snd (process_request self request w)) =
      (trace w ++ before ++ [Messages_error text true; Logout])%list /\
    text ∈ [msg_wrong_provider; msg_network_problem; msg_session_expired] /\
    calls is_save before = 0%nat.
Proof.
  destruct self;
    [ request_paths ValidateIdToken request w
    | request_paths ValidateIdTokenUsingCache request w ];
    cbn [fst snd]; intros H; try discriminate H;
    cbn [trace emit signed_out flush_session posted advance expiry_query];
    eexists _, _;
    (split; [apply history_tail; rewrite <- ?app_assoc; reflexivity|]);
    (split; [set_solver | reflexivity]).
Qed.

End Middleware.

(** C7: when the body of the renewal response does not decode as JSON,
    [renew_id_token] returns [None] and raises nothing, and
    [process_request] then ends as it does for a provider that rejects the
    renewal: a logout, a message that mentions an expired authentication
    session, and a redirect to the sign-in view. *)
Theorem process_request_undecodable_body
    (app_settings : Settings) (lower : Lowering)
    (reverse urlparse_path : string -> string)
    (remote rejecting : string -> pyval -> Z -> Exchange)
    (self : middleware) (request : Request) (w w1 : World)
    (token : IdToken) (response : Response) (items : list (string * pyval)) :
  eligible app_settings lower urlparse_path request = true ->
  is_expired self request w = (Returned true, w1) ->
  idtokens w1 !! user_id (user request) = Some token ->
  answer (renewal app_settings remote (id_token token)) = Returned response ->
  body_json response = None ->
  renewal app_settings rejecting (id_token token) =
    mkExchange (elapsed (renewal app_settings remote (id_token token)))
               (Returned (mkResponse (Some (PDict items)))) ->
  dict_get items "id_token" = PNone ->
  (forall w' : World,
     renew_id_token app_settings remote (id_token token) w' =
     (Returned PNone, posted app_settings remote (id_token token) w')) /\
  process_request app_settings lower reverse urlparse_path remote self request w =
    (Returned (Some (HttpResponseRedirect (reverse (AUTH0_SIGNIN_VIEW app_settings)))),
     signed_out msg_session_expired
       (posted app_settings remote (id_token token)
          (emit (IdToken_objects_get (user_id (user request))) w1))) /\
  mentions "expired authentication session" msg_session_expired = true /\
  process_request app_settings lower reverse urlparse_path remote self request w =
  process_request app_settings lower reverse urlparse_path rejecting self request w.
Proof.
  intros He Hx Ht Ha Hb Hrej Hkey.
  assert (Hrun : forall w',
    renew_id_token app_settings remote (id_token token) w' =
    (Returned PNone, posted app_settings remote (id_token token) w')).
  { intros w'. rewrite renew_id_token_run, Ha, Hb. reflexivity. }
  assert (Hrun' :
    renew_id_token app_settings rejecting (id_token token)
      (emit (IdToken_objects_get (user_id (user request))) w1) =
    (Returned PNone,
     posted app_settings remote (id_token token)
       (emit (IdToken_objects_get (user_id (user request))) w1))).
  { rewrite renew_id_token_run. unfold posted. rewrite Hrej. cbn.
    rewrite Hkey. reflexivity. }
  split; [exact Hrun|].
  rewrite (process_request_rejected _ _ _ _ remote _ _ _ _ _ _ _ He Hx Ht
             (Hrun _) eq_refl).
  rewrite (process_request_rejected _ _ _ _ rejecting _ _ _ _ _ _ _ He Hx Ht
             Hrun' eq_refl).
  repeat split.
Qed.

(** ** The statements at work on the concrete deployment *)

Import Example.

Lemma cached_is_expired_after_update_expiration_witness :
  0 < AUTH0_ID_TOKEN_EXPIRY settings /\
  fst (is_expired ValidateIdTokenUsingCache (get_status alice)
         (snd (update_expiration settings ValidateIdTokenUsingCache
                 (get_status alice) no_record)))
    = Returned true /\
  fst (is_expired ValidateIdTokenUsingCache (get_status alice)
         (advance 900000000
            (snd (update_expiration settings ValidateIdTokenUsingCache
                    (get_status alice) no_record))))
    = Returned false.
Proof.
  pose proof (cached_is_expired_after_update_expiration settings
                (get_status alice) no_record eq_refl) as [Hnow Hlater].
  split; [reflexivity|]. split; [exact Hnow|].
  apply Hlater. discriminate.
Defined.

Lemma cached_is_expired_by_live_entry_witness :
  live_entry (cache_key (get_status alice)) stale_record = None /\
  fst (is_expired ValidateIdTokenUsingCache (get_status alice) stale_record)
    = Returned false /\
  live_entry (cache_key (get_status alice)) stale_record_cached = Some (PBool true) /\
  fst (is_expired ValidateIdTokenUsingCache (get_status alice) stale_record_cached)
    = Returned true.
Proof.
  split; [reflexivity|]. split.
  - rewrite (proj1 (cached_is_expired_by_live_entry (get_status alice) stale_record)
               eq_refl).
    reflexivity.
  - split; [reflexivity|].
    rewrite (proj2 (cached_is_expired_by_live_entry (get_status alice)
                      stale_record_cached) (PBool true) eq_refl).
    reflexivity.
Defined.

Lemma direct_is_expired_witness :
  fst (is_expired ValidateIdToken (get_status alice) no_record) = Returned true /\
  fst (is_expired ValidateIdToken (get_status alice) stale_record) = Returned true /\
  fst (is_expired ValidateIdToken (get_status alice) fresh_record) = Returned false.
Proof.
  split; [|split].
  - rewrite (proj1 (direct_is_expired (get_status alice) no_record) eq_refl).
    reflexivity.
  - rewrite (proj1 (proj2 (direct_is_expired (get_status alice) stale_record))
               (mkIdToken (PStr "old") 500) eq_refl eq_refl).
    reflexivity.
  - rewrite (proj2 (proj2 (direct_is_expired (get_status alice) fresh_record))
               (mkIdToken (PStr "old") 2000) eq_refl eq_refl).
    reflexivity.
Defined.

(** The endpoint cannot be reached: [requests.post] raises
    [ConnectionError], which [process_request] lets through. *)
Lemma process_request_unreachable_raises :
  eligible settings lower urlparse_path (get_status alice) = true /\
  fst (is_expired ValidateIdToken (get_status alice) stale_record) = Returned true /\
  idtokens stale_record !! 7 = Some (mkIdToken (PStr "old") 500) /\
  answer (renewal settings unreachable (PStr "old")) = Raised ConnectionError /\
  fst (process_request settings lower reverse urlparse_path unreachable ValidateIdToken
         (get_status alice) stale_record) = Raised ConnectionError /\
  session (snd (process_request settings lower reverse urlparse_path unreachable
                  ValidateIdToken (get_status alice) stale_record)) = Some 7.
Proof. repeat split. Qed.

Lemma process_request_renewal_raises_witness :
  (* too slow: handled *)
  process_request settings lower reverse urlparse_path too_slow ValidateIdToken
    (get_status alice) stale_record =
  (Returned (Some (HttpResponseRedirect "/auth0_login/")),
   signed_out msg_network_problem
     (posted settings too_slow (PStr "old")
        (emit (IdToken_objects_get 7) (emit (IdToken_objects_get 7) stale_record)))) /\
  (* unreachable: not handled *)
  process_request settings lower reverse urlparse_path unreachable ValidateIdToken
    (get_status alice) stale_record =
  (Raised ConnectionError,
   posted settings unreachable (PStr "old")
     (emit (IdToken_objects_get 7) (emit (IdToken_objects_get 7) stale_record))).
Proof.
  split.
  - apply (proj1 (process_request_renewal_raises settings lower reverse urlparse_path
                    too_slow ValidateIdToken (get_status alice) stale_record
                    _ _ (mkIdToken (PStr "old") 500) ReadTimeout
                    eq_refl eq_refl eq_refl eq_refl)).
    right. reflexivity.
  - apply (proj1 (proj2 (process_request_renewal_raises settings lower reverse
                    urlparse_path unreachable ValidateIdToken (get_status alice)
                    stale_record _ _ (mkIdToken (PStr "old") 500) ConnectionError
                    eq_refl eq_refl eq_refl eq_refl))); discriminate.
Defined.

(** A renewal interval of 10^12 seconds: the renewal hands back a new
    token, line 150 raises [OverflowError], and the record is as before. *)
Lemma process_request_interval_out_of_range :
  eligible settings_forever lower urlparse_path (get_status alice) = true /\
  fst (is_expired ValidateIdToken (get_status alice) stale_record) = Returned true /\
  idtokens stale_record !! 7 = Some (mkIdToken (PStr "old") 500) /\
  fst (renew_id_token settings_forever renews (PStr "old")
         (emit (IdToken_objects_get 7) (emit (IdToken_objects_get 7) stale_record)))
    = Returned (PStr "new") /\
  truthy (PStr "new") = true /\
  fst (process_request settings_forever lower reverse urlparse_path renews
         ValidateIdToken (get_status alice) stale_record) = Raised OverflowError /\
  idtokens (snd (process_request settings_forever lower reverse urlparse_path
                   renews ValidateIdToken (get_status alice) stale_record)) !! 7
    = Some (mkIdToken (PStr "old") 500).
Proof. repeat split. Qed.

Lemma process_request_renewed_witness :
  (* an interval of 900 seconds *)
  process_request settings lower reverse urlparse_path renews ValidateIdToken
    (get_status alice) stale_record =
  (Returned None,
   mkWorld {[ 7 := mkIdToken (PStr "new") 900001030 ]} ∅ 1030 (Some 7)
     [IdToken_objects_get 7; IdToken_objects_get 7;
      Requests_post "https://auth.example.com/delegation"
        (PDict [("client_id", PStr "client0"); ("api_type", PStr "app");
                ("grant_type", PStr "urn:ietf:params:oauth:grant-type:jwt-bearer");
                ("id_token", PStr "old")]) 5;
      IdToken_save 7 (mkIdToken (PStr "new") 900001030);
      Logger_debug "ValidateIdToken: token renewed for alice"]) /\
  (* an interval of 10^12 seconds *)
  process_request settings_forever lower reverse urlparse_path renews
    ValidateIdToken (get_status alice) stale_record =
  (Raised OverflowError,
   posted settings_forever renews (PStr "old")
     (emit (IdToken_objects_get 7) (emit (IdToken_objects_get 7) stale_record))).
Proof.
  split.
  - rewrite (proj1 (proj1 (process_request_renewed settings lower reverse
                      urlparse_path renews ValidateIdToken (get_status alice)
                      stale_record _ _ (mkIdToken (PStr "old") 500) (PStr "new")
                      eq_refl eq_refl eq_refl eq_refl eq_refl) eq_refl eq_refl)).
    reflexivity.
  - apply (proj2 (process_request_renewed settings_forever lower reverse
                    urlparse_path renews ValidateIdToken (get_status alice)
                    stale_record _ _ (mkIdToken (PStr "old") 500) (PStr "new")
                    eq_refl eq_refl eq_refl eq_refl eq_refl)).
    right. reflexivity.
Defined.

Lemma process_request_missing_record_witness :
  process_request settings lower reverse urlparse_path renews ValidateIdToken
    (get_status alice) no_record =
  (Returned (Some (HttpResponseRedirect "/auth0_login/")),
   mkWorld ∅ ∅ 1000 None
     [IdToken_objects_get 7; IdToken_objects_get 7;
      Messages_error msg_wrong_provider true; Logout]).
Proof.
  rewrite (proj1 (process_request_missing_record settings lower reverse urlparse_path
                    renews ValidateIdToken (get_status alice) no_record
                    _ eq_refl eq_refl eq_refl)).
  reflexivity.
Defined.

Lemma process_request_undecodable_body_witness :
  renew_id_token settings bad_gateway (PStr "old") stale_record =
    (Returned PNone, posted settings bad_gateway (PStr "old") stale_record) /\
  process_request settings lower reverse urlparse_path bad_gateway ValidateIdToken
    (get_status alice) stale_record =
  (Returned (Some (HttpResponseRedirect "/auth0_login/")),
   mkWorld {[ 7 := mkIdToken (PStr "old") 500 ]} ∅ 1030 None
     [IdToken_objects_get 7; IdToken_objects_get 7;
      Requests_post "https://auth.example.com/delegation"
        (PDict [("client_id", PStr "client0"); ("api_type", PStr "app");
                ("grant_type", PStr "urn:ietf:params:oauth:grant-type:jwt-bearer");
                ("id_token", PStr "old")]) 5;
      Messages_error msg_session_expired true; Logout]) /\
  process_request settings lower reverse urlparse_path bad_gateway ValidateIdToken
    (get_status alice) stale_record =
  process_request settings lower reverse urlparse_path rejects ValidateIdToken
    (get_status alice) stale_record.
Proof.
  destruct (process_request_undecodable_body settings lower reverse urlparse_path
              bad_gateway rejects ValidateIdToken (get_status alice) stale_record
              _ (mkIdToken (PStr "old") 500) (mkResponse None)
              [("error", PStr "blocked")]
              eq_refl eq_refl eq_refl eq_refl eq_refl eq_refl eq_refl)
    as (Hrenew & Hrun & _ & Hsame).
  split; [apply Hrenew|]. split; [rewrite Hrun; reflexivity | exact Hsame].
Defined.

Lemma process_request_callback_path_witness :
  path (get_callback alice) = urlparse_path (AUTH0_CALLBACK_URL settings) /\
  process_request settings lower reverse urlparse_path renews ValidateIdToken
    (get_callback alice) stale_record = (Returned None, stale_record).
Proof.
  split; [reflexivity|].
  apply (process_request_callback_path settings lower reverse urlparse_path renews
           ValidateIdToken (get_callback alice) stale_record eq_refl).
Defined.

Lemma process_request_other_domain_witness :
  email_domain lower (get_status bob) = Returned "example.org" /\
  process_request settings lower reverse urlparse_path renews ValidateIdToken
    (get_status bob) stale_record = (Returned None, stale_record).
Proof.
  split; [reflexivity|].
  apply (process_request_other_domain settings lower reverse urlparse_path renews
           ValidateIdToken (get_status bob) stale_record "example.org" eq_refl).
  apply (bool_decide_eq_false_1 _). reflexivity.
Defined.

Lemma process_request_email_without_at_witness :
  occurs "@" (email carol) = false /\
  process_request settings lower reverse urlparse_path renews ValidateIdToken
    (get_status carol) stale_record = (Raised IndexError, stale_record).
Proof.
  split; [reflexivity|].
  apply (process_request_email_without_at settings lower reverse urlparse_path renews
           ValidateIdToken (get_status carol) stale_record);
    try reflexivity; try discriminate.
  apply (bool_decide_eq_false_1 _). reflexivity.
Defined.

(** ** The further properties at work on the concrete deployment *)

Lemma renew_id_token_raises_iff_witness :
  fst (renew_id_token settings answers_array (PStr "old") stale_record)
    = Raised AttributeError /\
  fst (renew_id_token settings unreachable (PStr "old") stale_record)
    = Raised ConnectionError.
Proof.
  split.
  - apply (proj2 (renew_id_token_raises_iff settings answers_array (PStr "old")
                    stale_record AttributeError)).
    right. split; [reflexivity|].
    exists (mkResponse (Some (PList []))), (PList []). repeat split.
  - apply (proj2 (renew_id_token_raises_iff settings unreachable (PStr "old")
                    stale_record ConnectionError)).
    left. reflexivity.
Defined.

Lemma renew_id_token_json_object_witness :
  renew_id_token settings renews (PStr "old") stale_record =
    (Returned (PStr "new"), posted settings renews (PStr "old") stale_record) /\
  renew_id_token settings rejects (PStr "old") stale_record =
    (Returned PNone, posted settings rejects (PStr "old") stale_record).
Proof.
  split.
  - apply (proj1 (renew_id_token_json_object settings renews (PStr "old")
                    stale_record _ [("id_token", PStr "new")] eq_refl eq_refl)).
  - apply (proj1 (renew_id_token_json_object settings rejects (PStr "old")
                    stale_record _ [("error", PStr "blocked")] eq_refl eq_refl)).
Defined.

Lemma process_request_skipped_witness :
  method (post_status alice) = "POST" /\
  process_request settings lower reverse urlparse_path renews ValidateIdToken
    (post_status alice) stale_record = (Returned None, stale_record).
Proof.
  split; [reflexivity|].
  apply (process_request_skipped settings lower reverse urlparse_path renews
           ValidateIdToken (post_status alice) stale_record).
  left. reflexivity.
Defined.

Lemma process_request_valid_token_witness :
  clock due_record <= expire (mkIdToken (PStr "old") 1000) /\
  process_request settings lower reverse urlparse_path renews ValidateIdToken
    (get_status alice) due_record =
  (Returned None,
   mkWorld {[ 7 := mkIdToken (PStr "old") 1000 ]} ∅ 1000 (Some 7)
     [IdToken_objects_get 7]).
Proof.
  split; [discriminate|].
  apply (process_request_valid_token settings lower reverse urlparse_path renews
           (get_status alice) due_record (mkIdToken (PStr "old") 1000)
           eq_refl eq_refl).
  discriminate.
Defined.

Lemma process_request_renewal_declined_witness :
  truthy (PStr "") = false /\
  process_request settings lower reverse urlparse_path answers_empty_token
    ValidateIdToken (get_status alice) stale_record =
  (Returned (Some (HttpResponseRedirect "/auth0_login/")),
   mkWorld {[ 7 := mkIdToken (PStr "old") 500 ]} ∅ 1030 None
     [IdToken_objects_get 7; IdToken_objects_get 7;
      Requests_post "https://auth.example.com/delegation"
        (PDict [("client_id", PStr "client0"); ("api_type", PStr "app");
                ("grant_type", PStr "urn:ietf:params:oauth:grant-type:jwt-bearer");
                ("id_token", PStr "old")]) 5;
      Messages_error msg_session_expired true; Logout]).
Proof.
  split; [reflexivity|].
  rewrite (proj1 (process_request_renewal_declined settings lower reverse urlparse_path
                    answers_empty_token ValidateIdToken (get_status alice)
                    stale_record _ (mkIdToken (PStr "old") 500) _
                    [("id_token", PStr "")]
                    eq_refl eq_refl eq_refl eq_refl eq_refl eq_refl)).
  reflexivity.
Defined.

Lemma process_request_keeps_records_witness :
  idtokens (snd (process_request settings lower reverse urlparse_path renews
                   ValidateIdToken (get_status alice) stale_record)) !! 8 = None.
Proof.
  rewrite (proj2 (process_request_keeps_records settings lower reverse urlparse_path
                    renews ValidateIdToken (get_status alice) stale_record) 8)
    by discriminate.
  reflexivity.
Defined.

Lemma process_request_redirect_is_logout_witness :
  fst (process_request settings lower reverse urlparse_path too_slow ValidateIdToken
         (get_status alice) stale_record)
    = Returned (Some (HttpResponseRedirect "/auth0_login/")) /\
  session (snd (process_request settings lower reverse urlparse_path too_slow
                  ValidateIdToken (get_status alice) stale_record)) = None.
Proof.
  split; [reflexivity|].
  apply (proj1 (process_request_redirect_is_logout settings lower reverse urlparse_path
                  too_slow ValidateIdToken (get_status alice) stale_record)
               (HttpResponseRedirect "/auth0_login/") eq_refl).
Defined.

Lemma process_request_raises_witness :
  fst (process_request settings lower reverse urlparse_path unreachable ValidateIdToken
         (get_status alice) stale_record) = Raised ConnectionError /\
  caught_by [ConnectTimeout; ReadTimeout] ConnectionError = false.
Proof.
  split; [reflexivity|].
  apply (proj1 (process_request_raises settings lower reverse urlparse_path unreachable
                  ValidateIdToken (get_status alice) stale_record
                  ConnectionError eq_refl)).
Defined.

Lemma process_request_direct_settles_witness :
  process_request settings lower reverse urlparse_path renews ValidateIdToken
    (get_status alice)
    (advance 900000000
       (snd (process_request settings lower reverse urlparse_path renews
               ValidateIdToken (get_status alice) stale_record))) =
  (Returned None,
   emit (IdToken_objects_get 7)
     (advance 900000000
        (snd (process_request settings lower reverse urlparse_path renews
                ValidateIdToken (get_status alice) stale_record)))).
Proof.
  apply (process_request_direct_settles settings lower reverse urlparse_path renews
           (get_status alice) stale_record (mkIdToken (PStr "old") 500)
           (PStr "new") 900000000 eq_refl eq_refl eq_refl eq_refl eq_refl
           eq_refl eq_refl).
  split; discriminate.
Defined.

Lemma process_request_cached_without_entry_witness :
  live_entry (cache_key (get_status alice)) stale_record = None /\
  process_request settings lower reverse urlparse_path renews ValidateIdTokenUsingCache
    (get_status alice) stale_record =
  (Returned None,
   mkWorld {[ 7 := mkIdToken (PStr "old") 500 ]} ∅ 1000 (Some 7)
     [Cache_get "auth0:renew_id_token:7"]).
Proof.
  split; [reflexivity|].
  apply (proj1 (process_request_cached_without_entry settings lower reverse
                  urlparse_path renews (get_status alice) stale_record
                  eq_refl eq_refl)).
Defined.

Lemma update_expiration_other_user_witness :
  live_entry (cache_key (get_status bob))
    (snd (update_expiration settings ValidateIdTokenUsingCache
            (get_status alice) stale_record)) = None /\
  fst (is_expired ValidateIdTokenUsingCache (get_status bob)
         (snd (update_expiration settings ValidateIdTokenUsingCache
                 (get_status alice) stale_record))) = Returned false.
Proof.
  destruct (update_expiration_other_user settings ValidateIdTokenUsingCache
              (get_status alice) (get_status bob) stale_record)
    as [Hlive Hanswer]; [discriminate|].
  split; [rewrite Hlive | rewrite Hanswer]; reflexivity.
Defined.

Lemma email_domain_of_address_witness :
  email alice = "Alice" +:+ String "@" "Mozilla.com" /\
  is_ascii (email alice) = true /\
  email_domain lower (get_status alice) = Returned "mozilla.com".
Proof.
  split; [reflexivity|]. split; [reflexivity|].
  apply (email_domain_of_address lower (get_status alice) "Alice" "Mozilla.com");
    reflexivity.
Defined.

Lemma process_request_cache_frame_witness :
  cache (snd (process_request settings lower reverse urlparse_path renews
                ValidateIdTokenUsingCache (get_status bob) stale_record_cached))
    !! "auth0:renew_id_token:7" = Some (PBool true, 5000).
Proof.
  rewrite (proj2 (process_request_cache_frame settings lower reverse urlparse_path
                    renews (get_status bob) stale_record_cached)
                 ValidateIdTokenUsingCache "auth0:renew_id_token:7")
    by discriminate.
  reflexivity.
Defined.

Lemma process_request_redirect_history_witness :
  trace (snd (process_request settings lower reverse urlparse_path rejects
                ValidateIdToken (get_status alice) stale_record)) =
  [IdToken_objects_get 7; IdToken_objects_get 7;
   Requests_post "https://auth.example.com/delegation"
     (PDict [("client_id", PStr "client0"); ("api_type", PStr "app");
             ("grant_type", PStr "urn:ietf:params:oauth:grant-type:jwt-bearer");
             ("id_token", PStr "old")]) 5;
   Messages_error msg_session_expired true; Logout] /\
  exists (before : list event) (text : string),
    trace (snd (process_request settings lower reverse urlparse_path rejects
                  ValidateIdToken (get_status alice) stale_record)) =
      (trace stale_record ++ before ++ [Messages_error text true; Logout])%list /\
    text ∈ [msg_wrong_provider; msg_network_problem; msg_session_expired] /\
    calls is_save before = 0%nat.
Proof.
  split; [reflexivity|].
  apply (process_request_redirect_history settings lower reverse urlparse_path rejects
           ValidateIdToken (get_status alice) stale_record
           (HttpResponseRedirect "/auth0_login/") eq_refl).
Defined.
